(** * pymarkdown: the pragma extension and the scan loop

    A shallow embedding of [pymarkdown/extensions/pragma_token.py] and of the
    scanning part of [pymarkdown/main.py].

    Conventions of the embedding:
    - a Python [str] is a [string]; its characters are the code points
      0..255, which is enough for the directive syntax (execution on text
      outside that range is not modelled);
    - a Python [int] is a [Z]; lengths and non-negative indices are [nat];
    - [Dict[int, str]] ([pragma_lines]) is an insertion-ordered association
      list, because the code iterates over it;
    - [Dict[int, Set[str]]] ([document_pragmas]) and [Dict[str, FoundPlugin]]
      ([all_ids]) are only looked up and stored into: they are [gmap]s;
    - a raised exception is the left injection of a sum. *)

From stdpp Require Import base gmap sets list strings pretty sorting.
From Stdlib Require Import ZArith Ascii String Sorted.

Local Open Scope Z_scope.

(** ** Exceptions *)

Inductive py_exception : Type :=
  | KeyError (key : Z)
  | AssertionError
  | BadPluginError (message : string)
  | BadTokenizationError (message : string)
  | SystemExit (code : Z).

Definition py_result (A : Type) : Type := py_exception + A.

Definition raise {A} (e : py_exception) : py_result A := inl e.
Definition ret {A} (a : A) : py_result A := inr a.

(** ** Python [str] methods used by the sources *)

Module PyStr.

(** [str.isspace] on one code point below 256. *)
Definition isspace (c : ascii) : bool :=
  let n := nat_of_ascii c in
  ((9 <=? n)%nat && (n <=? 13)%nat)
  || ((28 <=? n)%nat && (n <=? 32)%nat)
  || (n =? 133)%nat || (n =? 160)%nat.

(** [str.lower] on one code point below 256. *)
Definition lower_char (c : ascii) : ascii :=
  let n := nat_of_ascii c in
  if ((65 <=? n)%nat && (n <=? 90)%nat)
     || ((192 <=? n)%nat && (n <=? 222)%nat && negb (n =? 215)%nat)
  then ascii_of_nat (n + 32)
  else c.

Fixpoint lower (s : string) : string :=
  match s with
  | EmptyString => EmptyString
  | String c r => String (lower_char c) (lower r)
  end.

Definition is_empty (s : string) : bool :=
  match s with
  | EmptyString => true
  | String _ _ => false
  end.

Fixpoint startswith (s prefix : string) : bool :=
  match prefix, s with
  | EmptyString, _ => true
  | String _ _, EmptyString => false
  | String p ps, String c cs => Ascii.eqb c p && startswith cs ps
  end.

(** [s[n:]] for [0 <= n]. *)
Fixpoint from (n : nat) (s : string) : string :=
  match n, s with
  | O, _ => s
  | S _, EmptyString => EmptyString
  | S n', String _ r => from n' r
  end.

(** [s[:n]] for [0 <= n]. *)
Fixpoint upto (n : nat) (s : string) : string :=
  match n, s with
  | O, _ => EmptyString
  | S _, EmptyString => EmptyString
  | S n', String c r => String c (upto n' r)
  end.

(** [s[a:b]] for [0 <= a] and [0 <= b]. *)
Definition slice (a b : nat) (s : string) : string :=
  upto (b - a) (from a s).

(** [s[a:-k]] for [0 <= a] and [0 < k]: the end index [len(s) - k] is
    clipped at 0. *)
Definition slice_to_end_minus (a k : nat) (s : string) : string :=
  slice a (String.length s - k) s.

Definition endswith (s suffix : string) : bool :=
  (String.length suffix <=? String.length s)%nat
  && String.eqb (from (String.length s - String.length suffix) s) suffix.

Fixpoint lstrip (s : string) : string :=
  match s with
  | EmptyString => EmptyString
  | String c r => if isspace c then lstrip r else s
  end.

Fixpoint rstrip (s : string) : string :=
  match s with
  | EmptyString => EmptyString
  | String c r =>
      let r' := rstrip r in
      if is_empty r' && isspace c then EmptyString else String c r'
  end.

Definition strip (s : string) : string := rstrip (lstrip s).

(** [s.split(sep)] for a separator of one character. *)
Fixpoint split (sep : ascii) (s : string) : list string :=
  match s with
  | EmptyString => [EmptyString]
  | String c r =>
      if Ascii.eqb c sep then EmptyString :: split sep r
      else match split sep r with
           | [] => [String c EmptyString]
           | h :: t => String c h :: t
           end
  end.

(** ["".join(parts)]. *)
Definition join (parts : list string) : string :=
  foldr String.append EmptyString parts.

End PyStr.

(** ** Python [dict]: insertion-ordered, one entry per key *)

Module PyDict.
Section Dict.
Context {V : Type}.

Definition dict : Type := list (Z * V).

Fixpoint get (k : Z) (d : dict) : option V :=
  match d with
  | [] => None
  | (k', v) :: r => if Z.eqb k k' then Some v else get k r
  end.

(** [d[k] = v]: an existing key keeps its place, a new key goes last. *)
Fixpoint set (k : Z) (v : V) (d : dict) : dict :=
  match d with
  | [] => [(k, v)]
  | (k', v') :: r =>
      if Z.eqb k k' then (k, v) :: r else (k', v') :: set k v r
  end.

(** The order in which [for key in d] visits the keys. *)
Definition keys (d : dict) : list Z := map fst d.

End Dict.
Global Arguments dict : clear implicits.
End PyDict.

(** ** [ParserHelper]

    [pymarkdown/parser_helper.py] is not among the sources; the two
    functions of it that the pragma extension calls are modelled below,
    over the characters that the module takes for spaces, which are a
    parameter. *)

Module ParserHelper.

Fixpoint count_while (p : ascii → bool) (s : string) : nat :=
  match s with
  | EmptyString => O
  | String c r => if p c then S (count_while p r) else O
  end.

(** The characters that [extract_spaces] passes over, and the characters
    at which [extract_until_spaces] stops.  Neither set is in the sources:
    every property below holds whatever the two sets are, except where it
    says otherwise. *)
Class Spaces : Type := {
  is_space_char : ascii → bool;
  is_token_end : ascii → bool;
}.

Section Helpers.
Context `{SP : Spaces}.

(** Modelled from the spec: [ParserHelper.extract_spaces] is missing from
    the sources.  From [start_index] it scans over space characters and
    returns the index reached and the characters scanned; a start index
    outside the string gives [(None, None)], the case that the assertions
    of [compile_single_pragma] exclude. *)
Definition extract_spaces (source_string : string) (start_index : nat)
  : option (nat * string) :=
  if (start_index <=? String.length source_string)%nat then
    let n := count_while is_space_char (PyStr.from start_index source_string) in
    Some ((start_index + n)%nat,
          PyStr.slice start_index (start_index + n) source_string)
  else None.

(** Modelled from the spec: [ParserHelper.extract_until_spaces] is missing
    from the sources.  The spec has the command be "the first
    whitespace-delimited token" of the directive body: from [start_index]
    the function scans up to the next character that ends a token and
    returns the index reached and the text scanned, or [(None, None)] for
    a start index outside the string. *)
Definition extract_until_spaces (source_string : string) (start_index : nat)
  : option (nat * string) :=
  if (start_index <=? String.length source_string)%nat then
    let n := count_while (λ c, negb (is_token_end c))
               (PyStr.from start_index source_string) in
    Some ((start_index + n)%nat,
          PyStr.slice start_index (start_index + n) source_string)
  else None.

End Helpers.

(** The whitespace of ASCII: space, tab, line feed, vertical tab, form
    feed and carriage return. *)
Definition is_ascii_whitespace (c : ascii) : bool :=
  let n := nat_of_ascii c in
  (n =? 32)%nat || ((9 <=? n)%nat && (n <=? 13)%nat).

(** Modelled from the spec: the spaces of the executions below.  The spec
    has the command "whitespace-delimited" and names no characters; both
    sets are taken to be the whitespace of ASCII. *)
#[global] Instance ascii_whitespace : Spaces := {|
  is_space_char := is_ascii_whitespace;
  is_token_end := is_ascii_whitespace;
|}.

End ParserHelper.

(** ** [pymarkdown/extensions/pragma_token.py] *)

(** The attributes of the collaborating classes that the code reads or
    writes; the classes themselves are not among the sources. *)

Record FoundPlugin : Type := { plugin_id : string }.

Record PositionMarker : Type := {
  line_number : Z;
  index_number : Z;
}.

Record ParseBlockPassProperties : Type := {
  pragma_lines : PyDict.dict string;
}.

Inductive MarkdownTokenClass : Type :=
  | CONTAINER_BLOCK | LEAF_BLOCK | INLINE_BLOCK | SPECIAL.

Record MarkdownToken : Type := {
  token_name : string;
  token_class : MarkdownTokenClass;
  is_extension : bool;
  extra_data : string;
}.

(** Modelled from the spec: the value of [MarkdownToken._token_pragma] is
    declared in [pymarkdown/markdown_token.py], which is not among the
    sources; the spec lists "pragma" among the kinds. *)
Definition _token_pragma : string := "pragma".

Module PragmaToken.

Definition pragma_prefix : string := "<!--".
Definition pragma_alternate_prefix : string := "<!---".
Definition pragma_title : string := "pyml ".
Definition pragma_suffix : string := "-->".

Record t : Type := {
  base : MarkdownToken;
  __pragma_lines : PyDict.dict string;
}.

(** [f";{next_line_number}:{pragma_lines[next_line_number]}"]; the key
    is taken from the dictionary itself, so the lookup cannot fail. *)
Definition serialize_entry (pragma_lines : PyDict.dict string)
    (next_line_number : Z) : string :=
  ";" +:+ pretty next_line_number +:+ ":"
      +:+ default EmptyString (PyDict.get next_line_number pragma_lines).

Definition serialized_pragmas (pragma_lines : PyDict.dict string) : string :=
  PyStr.join (map (serialize_entry pragma_lines) (PyDict.keys pragma_lines)).

(** [PragmaToken.__init__]. *)
Definition init (pragma_lines : PyDict.dict string) : t :=
  {| base := {| token_name := _token_pragma;
                token_class := SPECIAL;
                is_extension := true;
                extra_data := PyStr.from 1 (serialized_pragmas pragma_lines) |};
     __pragma_lines := pragma_lines |}.

End PragmaToken.

Module PragmaExtension.
Section Extension.
Context `{SP : ParserHelper.Spaces}.

(** [look_for_pragmas]: the result and the parser properties after the
    call ([pragma_lines] is updated in place by the source). *)
Definition look_for_pragmas
    (position_marker : PositionMarker)
    (line_to_parse : string)
    (container_depth : Z)
    (extracted_whitespace : option string)
    (parser_properties : ParseBlockPassProperties)
  : bool * ParseBlockPassProperties :=
  if Z.eqb container_depth 0
     && match extracted_whitespace with
        | None => true
        | Some ws => PyStr.is_empty ws
        end
     && (PyStr.startswith line_to_parse PragmaToken.pragma_prefix
         || PyStr.startswith line_to_parse PragmaToken.pragma_alternate_prefix)
  then
    let was_extended_prefix :=
      PyStr.startswith line_to_parse PragmaToken.pragma_alternate_prefix in
    let start_index : option nat :=
      fst <$> ParserHelper.extract_spaces line_to_parse
                (String.length (if was_extended_prefix
                                then PragmaToken.pragma_alternate_prefix
                                else PragmaToken.pragma_prefix)) in
    let remaining_line :=
      PyStr.lower (PyStr.rstrip
        (match start_index with
         | Some i => PyStr.from i line_to_parse
         | None => line_to_parse
         end)) in
    if PyStr.startswith remaining_line PragmaToken.pragma_title
       && PyStr.endswith remaining_line PragmaToken.pragma_suffix
    then
      let index_number :=
        if was_extended_prefix
        then - line_number position_marker
        else line_number position_marker in
      (true,
       {| pragma_lines :=
            PyDict.set index_number line_to_parse
              (pragma_lines parser_properties) |})
    else (false, parser_properties)
  else (false, parser_properties).

(** The mutable objects that [compile_single_pragma] receives by
    reference, and the calls made to [log_pragma_failure], in order. *)
Record Store : Type := {
  st_pragma_lines : PyDict.dict string;
  st_document_pragmas : gmap Z (gset string);
  st_failures : list (string * Z * string);
}.

Definition log_pragma_failure (scan_file : string) (line : Z)
    (message : string) (σ : Store) : Store :=
  {| st_pragma_lines := st_pragma_lines σ;
     st_document_pragmas := st_document_pragmas σ;
     st_failures := st_failures σ ++ [(scan_file, line, message)] |}.

Definition blank_id_message (command : string) : string :=
  "Inline configuration command '" +:+ command
    +:+ "' specified a plugin with a blank id.".

Definition unknown_id_message (command next_id : string) : string :=
  "Inline configuration command '" +:+ command
    +:+ "' unable to find a plugin with the id '" +:+ next_id +:+ "'.".

Definition no_command_message : string :=
  "Inline configuration specified without command.".

Definition not_understood_message (command : string) : string :=
  "Inline configuration command '" +:+ command +:+ "' not understood.".

(** One iteration of the loop of [__handle_disable_next_line], on the
    pair of [processed_ids] and the store. *)
Definition disable_next_line_step
    (scan_file : string) (actual_line_number : Z)
    (all_ids : gmap string FoundPlugin) (command : string)
    (acc : gset string * Store) (next_id : string) : gset string * Store :=
  let next_id := PyStr.lower (PyStr.strip next_id) in
  if PyStr.is_empty next_id then
    (acc.1, log_pragma_failure scan_file actual_line_number
              (blank_id_message command) acc.2)
  else
    match all_ids !! next_id with
    | Some found =>
        let normalized_id := plugin_id found in
        ({[normalized_id]} ∪ acc.1, acc.2)
    | None =>
        (acc.1, log_pragma_failure scan_file actual_line_number
                  (unknown_id_message command next_id) acc.2)
    end.

Definition __handle_disable_next_line
    (command_data : string) (after_command_index : nat)
    (scan_file : string) (actual_line_number : Z)
    (all_ids : gmap string FoundPlugin) (command : string)
    (σ : Store) : Store :=
  let ids_to_disable :=
    PyStr.split ","%char (PyStr.from after_command_index command_data) in
  let '(processed_ids, σ') :=
    foldl (disable_next_line_step scan_file actual_line_number all_ids command)
          (∅, σ) ids_to_disable in
  if bool_decide (processed_ids = ∅) then σ'
  else
    {| st_pragma_lines := st_pragma_lines σ';
       st_document_pragmas :=
         <[actual_line_number + 1 := processed_ids]> (st_document_pragmas σ');
       st_failures := st_failures σ' |}.

Definition compile_single_pragma
    (scan_file : string) (next_line_number : Z)
    (all_ids : gmap string FoundPlugin) (σ : Store) : py_result Store :=
  let '(prefix_length, actual_line_number) :=
    if 0 <? next_line_number
    then (String.length PragmaToken.pragma_prefix, next_line_number)
    else (String.length PragmaToken.pragma_alternate_prefix, - next_line_number) in
  match PyDict.get next_line_number (st_pragma_lines σ) with
  | None => raise (KeyError next_line_number)
  | Some raw_line =>
      let line_after_prefix := PyStr.rstrip (PyStr.from prefix_length raw_line) in
      match ParserHelper.extract_spaces line_after_prefix 0 with
      | None => raise AssertionError
      | Some (after_whitespace_index, _) =>
          let command_data :=
            PyStr.slice_to_end_minus
              (after_whitespace_index + String.length PragmaToken.pragma_title)
              (String.length PragmaToken.pragma_suffix)
              line_after_prefix in
          match ParserHelper.extract_until_spaces command_data 0 with
          | None => raise AssertionError
          | Some (after_command_index, command) =>
              let command := PyStr.lower command in
              if PyStr.is_empty command then
                ret (log_pragma_failure scan_file actual_line_number
                       no_command_message σ)
              else if String.eqb command "disable-next-line" then
                ret (__handle_disable_next_line command_data
                       after_command_index scan_file actual_line_number
                       all_ids command σ)
              else
                ret (log_pragma_failure scan_file actual_line_number
                       (not_understood_message command) σ)
          end
      end
  end.

End Extension.
End PragmaExtension.

(** *** Executions of the pragma extension *)

Module PragmaExamples.
Import PragmaExtension.

Definition rules : gmap string FoundPlugin :=
  <["md009" := {| plugin_id := "md009" |}]>
    (<["no-trailing-spaces" := {| plugin_id := "md009" |}]> ∅).

Definition empty_store (lines : PyDict.dict string) : Store :=
  {| st_pragma_lines := lines; st_document_pragmas := ∅; st_failures := [] |}.

Definition line1 : string := "<!-- pyml disable-next-line no-trailing-spaces -->".

(** Line 4 of a document, spelled with the alternate prefix. *)
Definition marker4 : PositionMarker := {| line_number := 4; index_number := 0 |}.
Definition alternate_line : string := "<!--- pyml disable-next-line md009 -->".
Definition before4 : ParseBlockPassProperties :=
  {| pragma_lines := [(4, "<!-- pyml x -->")] |}.
Definition after4 : ParseBlockPassProperties :=
  {| pragma_lines := [(4, "<!-- pyml x -->"); (-4, alternate_line)] |}.

(** A document of three directives, the second one in the alternate
    spelling. *)
Definition mixed_document : list string :=
  ["<!-- pyml disable-next-line md001 -->";
   "<!--- pyml disable-next-line md002 -->";
   "<!-- pyml disable-next-line md003 -->"].

Definition two_entries : PyDict.dict string := [(1, "a"); (-2, "b")].

(** Line 4 in the alternate spelling: an unknown id, an alias in mixed
    case and a blank id. *)
Definition alias_line : string :=
  "<!---  PyML Disable-next-line zzz, No-Trailing-Spaces, -->  ".
Definition alias_store : Store := empty_store [(-4, alias_line)].

(** Line 2 of a document, with a tab between the command and the id. *)
Definition tab_line : string :=
  "<!-- pyml disable-next-line" +:+ String (ascii_of_nat 9) "md009 -->".
Definition tab_store : Store := empty_store [(2, tab_line)].

(** Directives that do not pass validation. *)
Definition no_command_store : Store := empty_store [(2, "<!-- pyml -->")].
Definition enable_store : Store := empty_store [(3, "<!-- pyml Enable md009 -->")].
Definition unknown_only_store : Store :=
  {| st_pragma_lines := [(6, "<!-- pyml disable-next-line zzz -->")];
     st_document_pragmas := {[ 7 := {[ "md001" ]} ]};
     st_failures := [] |}.

End PragmaExamples.

(** ** [pymarkdown/main.py]: scanning *)

(** The collaborators of the scan loop, none of which is among the
    sources: the plugin manager (a state [PM] and its hooks, each of which
    may raise), the file source provider (the lines it yields for a path)
    and the tokenizer. *)
Class Collaborators : Type := {
  PM : Type;
  Context_ : Type;
  Token : Type;
  starting_new_file : string → PM → py_result Context_ * PM;
  next_line : Context_ → Z → string → PM → py_result () * PM;
  next_token : Context_ → Token → PM → py_result () * PM;
  completed_file : Context_ → Z → PM → py_result () * PM;
  number_of_scan_failures : PM → Z;
  FileSourceProvider : string → list string;
  transform_from_provider : option (list string) → py_result (list Token);
}.

Record Args : Type := {
  x_test_scan_fault : bool;
  show_stack_trace : bool;
}.

(** The exception that is being handled when [__handle_error] is called:
    one of the exceptions above, or one of the two that
    [load_json_configuration] catches. *)
Inductive Handled : Type :=
  | Handled_exception (this_exception : py_exception)
  | Handled_JSONDecodeError (message : string)
  | Handled_IOError (message : string).

(** [traceback.print_exc(file=sys.stderr)]: the text that it writes for
    the exception being handled.  It depends on the stack of the
    interpreter and is a parameter. *)
Class Tracebacks : Type := {
  traceback_print_exc : Handled → string;
}.

Module PyMarkdownLint.
Section Scan.
Context `{C : Collaborators} `{T : Tracebacks}.

(** The calls made to the collaborators, as the scan makes them; the
    last one is [self.logger.warning(message, exc_info=True)], made while
    [exc_info] is being handled.  What the handlers of [logging] do with
    the record depends on how logging is configured when [main] runs and
    is not modelled: the call is recorded, with its message. *)
Inductive Call : Type :=
  | Call_starting_new_file (next_file : string)
  | Call_next_line (line_number : Z) (next_line : string)
  | Call_transform_from_provider (source : option (list string))
  | Call_next_token (next_token : Token)
  | Call_completed_file (line_number : Z)
  | Call_logger_warning (message : string) (exc_info : Handled).

(** The state of a run: the plugin manager, what the program itself
    wrote to [sys.stderr] (with [print] and with [traceback.print_exc]),
    one text per call, and the calls made so far. *)
Record Run : Type := {
  plugins : PM;
  stderr : list string;
  calls : list Call;
}.

(** Computations of the run: state passing, with exceptions. *)
Definition M (A : Type) : Type := Run → py_result A * Run.

Definition mret {A} (a : A) : M A := λ σ, (inr a, σ).
Definition mbind {A B} (m : M A) (k : A → M B) : M B :=
  λ σ, match m σ with
       | (inl e, σ') => (inl e, σ')
       | (inr a, σ') => k a σ'
       end.
Definition mraise {A} (e : py_exception) : M A := λ σ, (inl e, σ).

Definition record_call (c : Call) (σ : Run) : Run :=
  {| plugins := plugins σ; stderr := stderr σ; calls := calls σ ++ [c] |}.

Definition print_stderr (text : string) : M () :=
  λ σ, (inr (), {| plugins := plugins σ;
                   stderr := stderr σ ++ [text];
                   calls := calls σ |}).

(** A call of a plugin manager hook. *)
Definition hook {A} (c : Call) (h : PM → py_result A * PM) : M A :=
  λ σ, let σ := record_call c σ in
       let '(r, pm) := h (plugins σ) in
       (r, {| plugins := pm; stderr := stderr σ; calls := calls σ |}).

Definition tokenize (source : option (list string)) : M (list Token) :=
  λ σ, (transform_from_provider source,
        record_call (Call_transform_from_provider source) σ).

(** The [while next_line is not None] loop of [__scan_file], on the
    lines that the source provider still holds; it returns the final
    value of [line_number]. *)
Fixpoint raw_line_loop (context : Context_) (line_number : Z)
    (source_provider : list string) : M Z :=
  match source_provider with
  | [] => mret line_number
  | line :: source_provider =>
      mbind (hook (Call_next_line line_number line)
               (next_line context line_number line))
        (λ _, raw_line_loop context (line_number + 1) source_provider)
  end.

(** The [for next_token in actual_tokens] loop of [__scan_file]. *)
Fixpoint token_loop (context : Context_) (actual_tokens : list Token)
    : M () :=
  match actual_tokens with
  | [] => mret ()
  | token :: actual_tokens =>
      mbind (hook (Call_next_token token) (next_token context token))
        (λ _, token_loop context actual_tokens)
  end.

Definition __scan_file (args : Args) (next_file : string) : M () :=
  let source_provider := FileSourceProvider next_file in
  let line_number := 1 in
  mbind (hook (Call_starting_new_file next_file)
           (starting_new_file next_file)) (λ context,
  mbind (raw_line_loop context line_number source_provider) (λ line_number,
  let source_provider :=
    if x_test_scan_fault args then None
    else Some (FileSourceProvider next_file) in
  mbind (tokenize source_provider) (λ actual_tokens,
  mbind (token_loop context actual_tokens) (λ _,
  hook (Call_completed_file line_number)
    (completed_file context line_number))))).

Definition newline : string := String (ascii_of_nat 10) EmptyString.

(** [str(type(this_exception).__name__)] and [str(this_exception)]. *)
Definition type_name (e : py_exception) : string :=
  match e with
  | KeyError _ => "KeyError"
  | AssertionError => "AssertionError"
  | BadPluginError _ => "BadPluginError"
  | BadTokenizationError _ => "BadTokenizationError"
  | SystemExit _ => "SystemExit"
  end.

Definition str_of_exception (e : py_exception) : string :=
  match e with
  | KeyError k => pretty k
  | AssertionError => ""
  | BadPluginError m => m
  | BadTokenizationError m => m
  | SystemExit c => pretty c
  end.

(** [__handle_error]: log, print, print the stack trace when
    [self.__show_stack_trace] is set, and [sys.exit(1)].  The attribute
    [self.__show_stack_trace], which [main] sets from its arguments
    before anything else, and the exception being handled, which the
    interpreter keeps, are arguments here. *)
Definition __handle_error (__show_stack_trace : bool) (handled : Handled)
    (formatted_error : string) : M () :=
  mbind (λ σ, (inr (), record_call
                         (Call_logger_warning formatted_error handled) σ)) (λ _,
  mbind (print_stderr formatted_error) (λ _,
  mbind (if __show_stack_trace
         then print_stderr (traceback_print_exc handled)
         else mret ()) (λ _,
  mraise (SystemExit 1)))).

Definition scan_error_text (next_file : string) (e : py_exception) : string :=
  type_name e +:+ " encountered while scanning '" +:+ next_file
    +:+ "':" +:+ newline +:+ str_of_exception e.

Definition __handle_scan_error (__show_stack_trace : bool)
    (next_file : string) (this_exception : py_exception) : M () :=
  __handle_error __show_stack_trace (Handled_exception this_exception)
    (scan_error_text next_file this_exception).

(** The body of the [for next_file in files_to_scan] loop of [main]:
    the [try] with its two [except] clauses. *)
Definition scan_one (args : Args) (next_file : string) : M () :=
  λ σ, match __scan_file args next_file σ with
       | (inl (BadPluginError m), σ') =>
           __handle_scan_error (show_stack_trace args) next_file
             (BadPluginError m) σ'
       | (inl (BadTokenizationError m), σ') =>
           __handle_scan_error (show_stack_trace args) next_file
             (BadTokenizationError m) σ'
       | other => other
       end.

Fixpoint scan_loop (args : Args) (files_to_scan : list string) : M () :=
  match files_to_scan with
  | [] => mret ()
  | next_file :: files_to_scan =>
      mbind (scan_one args next_file) (λ _, scan_loop args files_to_scan)
  end.

(** [main] from the loop over [files_to_scan] to its end; what comes
    before (arguments, file discovery, initialisation) delivers [args],
    [files_to_scan] and the initial run. *)
Definition main (args : Args) (files_to_scan : list string) : M () :=
  mbind (scan_loop args files_to_scan) (λ _ σ,
    if Z.eqb (number_of_scan_failures (plugins σ)) 0
    then mret () σ
    else mraise (SystemExit 1) σ).

End Scan.
End PyMarkdownLint.

(** *** Executions of the scan loop *)

Module ScanExamples.

(** Collaborators for the examples: the tokenizer yields one token per
    line and fails on a line ["bad"]; the plugin manager counts the
    lines that are ["long"] as failures and fails on a token ["boom"]. *)
#[export] Instance demo : Collaborators := {|
  PM := Z;
  Context_ := string;
  Token := string;
  starting_new_file := λ next_file pm, (inr next_file, pm);
  next_line := λ _ _ line pm,
    (inr (), if String.eqb line "long" then pm + 1 else pm);
  next_token := λ _ token pm,
    if String.eqb token "boom"
    then (inl (BadPluginError "plugin failed"), pm)
    else (inr (), pm);
  completed_file := λ _ _ pm, (inr (), pm);
  number_of_scan_failures := λ pm, pm;
  FileSourceProvider := λ next_file,
    if String.eqb next_file "a.md" then ["bad"]
    else if String.eqb next_file "b.md" then ["one"; "two"]
    else if String.eqb next_file "c.md" then ["boom"]
    else [];
  transform_from_provider := λ source,
    match source with
    | None => inl (BadTokenizationError "no source")
    | Some lines =>
        if existsb (String.eqb "bad") lines
        then inl (BadTokenizationError "bad line")
        else inr lines
    end;
|}.

(** A stack trace for the examples. *)
#[export] Instance demo_tracebacks : Tracebacks := {|
  traceback_print_exc := λ handled,
    match handled with
    | Handled_exception this_exception =>
        "Traceback (most recent call last): " +:+
        match this_exception with
        | BadPluginError message => "BadPluginError: " +:+ message
        | BadTokenizationError message => "BadTokenizationError: " +:+ message
        | _ => "Exception"
        end
    | Handled_JSONDecodeError message =>
        "Traceback (most recent call last): JSONDecodeError: " +:+ message
    | Handled_IOError message =>
        "Traceback (most recent call last): IOError: " +:+ message
    end;
|}.

Definition args0 : Args :=
  {| x_test_scan_fault := false; show_stack_trace := false |}.

Definition args_with_stack_trace : Args :=
  {| x_test_scan_fault := false; show_stack_trace := true |}.

Definition run0 : PyMarkdownLint.Run :=
  {| PyMarkdownLint.plugins := 0;
     PyMarkdownLint.stderr := [];
     PyMarkdownLint.calls := [] |}.

End ScanExamples.

(** ** [pymarkdown/main.py]: the files to scan *)

(** The part of [os] and [os.path] that [__determine_files_to_scan] uses:
    each entry of [os_walk] is a triple [(root, dirs, files)]. *)
Class FileSystem : Type := {
  os_path_exists : string → bool;
  os_path_isdir : string → bool;
  os_walk : string → list (string * list string * list string);
}.

(** [sep.join(parts)]. *)
Fixpoint join_with (sep : string) (parts : list string) : string :=
  match parts with
  | [] => EmptyString
  | [part] => part
  | part :: parts => part +:+ sep +:+ join_with sep parts
  end.

Module FileDiscovery.

Definition is_file_eligible_to_scan (path_to_test : string) : bool :=
  PyStr.endswith path_to_test ".md".

Section Discovery.
Context `{FS : FileSystem}.

(** The body of [for file in files]. *)
Definition add_walked_file (root : string) (files_to_parse : gset string)
    (file : string) : gset string :=
  let rooted_file_path := root +:+ "/" +:+ file in
  if is_file_eligible_to_scan rooted_file_path
  then {[rooted_file_path]} ∪ files_to_parse
  else files_to_parse.

(** The body of [for root, _, files in os.walk(next_path)]. *)
Definition add_walked_directory (files_to_parse : gset string)
    (entry : string * list string * list string) : gset string :=
  let '(root, _, files) := entry in
  foldl (add_walked_file root) files_to_parse files.

Definition does_not_exist_message (next_path : string) : string :=
  "Provided path '" +:+ next_path +:+ "' does not exist. Skipping.".

Definition not_markdown_message (next_path : string) : string :=
  "Provided file path '" +:+ next_path
    +:+ "' is not a valid markdown file. Skipping.".

(** The body of [for next_path in eligible_paths], on the set
    [files_to_parse] and on what has been printed to [sys.stderr]. *)
Definition add_path (acc : gset string * list string) (next_path : string)
  : gset string * list string :=
  let '(files_to_parse, printed) := acc in
  if negb (os_path_exists next_path) then
    (files_to_parse, printed ++ [does_not_exist_message next_path])
  else if os_path_isdir next_path then
    (foldl add_walked_directory files_to_parse (os_walk next_path), printed)
  else if is_file_eligible_to_scan next_path then
    ({[next_path]} ∪ files_to_parse, printed)
  else
    (files_to_parse, printed ++ [not_markdown_message next_path]).

(** [__determine_files_to_scan]: the sorted list of the files found, and
    what was printed to [sys.stderr]. *)
Definition __determine_files_to_scan (eligible_paths : list string)
  : list string * list string :=
  let '(files_to_parse, printed) := foldl add_path (∅, []) eligible_paths in
  (merge_sort String.le (elements files_to_parse), printed).

End Discovery.

(** [__handle_list_files]: what is printed to [sys.stdout], what is
    printed to [sys.stderr], and the return code. *)
Definition __handle_list_files (files_to_scan : list string)
  : list string * list string * Z :=
  match files_to_scan with
  | [] => ([], ["No Markdown files found."%string], 1)
  | _ :: _ =>
      ([join_with (String (ascii_of_nat 10) EmptyString) files_to_scan], [], 0)
  end.

End FileDiscovery.

(** ** [pymarkdown/main.py]: [main] from its first line *)

(** The parsed arguments that [main] reads beside those that the scan
    reads. *)
Record CommandLine : Type := {
  list_files : bool;
  enable_rules : string;
  disable_rules : string;
  x_test_init_fault : bool;
  add_plugin : option (list string);
  configuration_file : option string;
  paths : list string;
  scan_args : Args;
}.

(** What [open] and [json.load] make of a configuration file. *)
Inductive JsonOutcome (Config : Type) : Type :=
  | JsonLoaded (configuration_map : Config)
  | JSONDecodeError (message : string)
  | IOError (message : string).
Global Arguments JsonLoaded {_} _.
Global Arguments JSONDecodeError {_} _.
Global Arguments IOError {_} _.

(** The collaborators of the start of [main], none of which is among the
    sources: the construction and initialisation of the plugin manager,
    the construction of the tokenizer (whose [transform_from_provider] is
    that of [Collaborators] once it is built), the reading of a JSON file
    and the application of a configuration to the plugins. *)
Class Startup `{C : Collaborators} : Type := {
  Config : Type;
  empty_config : Config;
  plugin_dir : string;
  PluginManager : PM;
  initialize :
    string → option (list string) → string → string → PM → py_result () * PM;
  TokenizedMarkdown : option string → py_result ();
  json_load : string → JsonOutcome Config;
  apply_configuration : Config → PM → py_result () * PM;
}.

Module PyMarkdownLintMain.
Import PyMarkdownLint.
Section Main.
Context `{S : Startup} `{T : Tracebacks} `{FS : FileSystem}.

(** The state of the process: the run, and what was printed on
    [sys.stdout]. *)
Record Process : Type := {
  run : Run;
  stdout : list string;
}.

Definition P (A : Type) : Type := Process → py_result A * Process.

Definition pret {A} (a : A) : P A := λ π, (inr a, π).
Definition pbind {A B} (m : P A) (k : A → P B) : P B :=
  λ π, match m π with
       | (inl e, π') => (inl e, π')
       | (inr a, π') => k a π'
       end.

(** A computation of the run, within the process. *)
Definition lift {A} (m : M A) : P A :=
  λ π, let '(r, σ) := m (run π) in (r, {| run := σ; stdout := stdout π |}).

Definition print_stdout (text : string) : P () :=
  λ π, (inr (), {| run := run π; stdout := stdout π ++ [text] |}).

(** A call of a method of the plugin manager that the scan does not
    make: the run keeps the manager it leaves. *)
Definition on_plugins {A} (h : PM → py_result A * PM) : M A :=
  λ σ, let '(r, pm) := h (plugins σ) in
       (r, {| plugins := pm; stderr := stderr σ; calls := calls σ |}).

Definition set_plugins (pm : PM) : M () :=
  λ σ, (inr (), {| plugins := pm; stderr := stderr σ; calls := calls σ |}).

Fixpoint print_all_stderr (texts : list string) : M () :=
  match texts with
  | [] => mret ()
  | text :: texts => mbind (print_stderr text) (λ _, print_all_stderr texts)
  end.

(** [try: ... except BadPluginError as this_exception: ...]. *)
Definition except_BadPluginError {A} (m : M A)
    (handler : py_exception → M A) : M A :=
  λ σ, match m σ with
       | (inl (BadPluginError message), σ') =>
           handler (BadPluginError message) σ'
       | other => other
       end.

Definition except_BadTokenizationError {A} (m : M A)
    (handler : py_exception → M A) : M A :=
  λ σ, match m σ with
       | (inl (BadTokenizationError message), σ') =>
           handler (BadTokenizationError message) σ'
       | other => other
       end.

Definition __initialize_plugins (args : CommandLine) (plugin_dir : string)
  : M () :=
  mbind (set_plugins PluginManager) (λ _,
  except_BadPluginError
    (on_plugins (initialize plugin_dir (add_plugin args)
                   (enable_rules args) (disable_rules args)))
    (λ this_exception,
       __handle_error (show_stack_trace (scan_args args))
         (Handled_exception this_exception)
         ("BadPluginError encountered while loading plugins:" +:+ newline
          +:+ str_of_exception this_exception))).

Definition __initialize_parser (args : CommandLine) : M () :=
  let resource_path :=
    if x_test_init_fault args then Some "fredo"%string else None in
  except_BadTokenizationError
    (λ σ, (TokenizedMarkdown resource_path, σ))
    (λ this_exception,
       __handle_error (show_stack_trace (scan_args args))
         (Handled_exception this_exception)
         (type_name this_exception
          +:+ " encountered while initializing tokenizer:" +:+ newline
          +:+ str_of_exception this_exception)).

(** [load_json_configuration], with [self.__show_stack_trace] as an
    argument. *)
Definition load_json_configuration (__show_stack_trace : bool)
    (configuration_file : string) : M Config :=
  match json_load configuration_file with
  | JsonLoaded configuration_map => mret configuration_map
  | JSONDecodeError ex =>
      mbind (__handle_error __show_stack_trace (Handled_JSONDecodeError ex)
               ("Specified configuration file '" +:+ configuration_file
                +:+ "' is not a valid JSON file (" +:+ ex +:+ ")."))
        (λ _, mret empty_config)
  | IOError ex =>
      mbind (__handle_error __show_stack_trace (Handled_IOError ex)
               ("Specified configuration file '" +:+ configuration_file
                +:+ "' was not loaded (" +:+ ex +:+ ")."))
        (λ _, mret empty_config)
  end.

Definition __load_configuration_and_apply_to_plugins (args : CommandLine)
  : M () :=
  mbind (match configuration_file args with
         | Some file =>
             if PyStr.is_empty file then mret empty_config
             else load_json_configuration
                    (show_stack_trace (scan_args args)) file
         | None => mret empty_config
         end) (λ loaded_configuration_map,
  except_BadPluginError
    (on_plugins (apply_configuration loaded_configuration_map))
    (λ this_exception,
       __handle_error (show_stack_trace (scan_args args))
         (Handled_exception this_exception)
         (type_name this_exception
          +:+ " encountered while configuring plugins:" +:+ newline
          +:+ str_of_exception this_exception))).

(** [main], after [__parse_arguments] has delivered [args]. *)
Definition main_from_arguments (args : CommandLine) : P () :=
  let '(files_to_scan, printed) :=
    FileDiscovery.__determine_files_to_scan (paths args) in
  pbind (lift (print_all_stderr printed)) (λ _,
  if list_files args then
    let '(out, err, return_code) :=
      FileDiscovery.__handle_list_files files_to_scan in
    pbind (λ π, (inr (), {| run := run π; stdout := stdout π ++ out |})) (λ _,
    pbind (lift (print_all_stderr err)) (λ _,
    lift (mraise (SystemExit return_code))))
  else
    lift (mbind (__initialize_plugins args plugin_dir) (λ _,
          mbind (__initialize_parser args) (λ _,
          mbind (__load_configuration_and_apply_to_plugins args) (λ _,
          main (scan_args args) files_to_scan))))).

End Main.
End PyMarkdownLintMain.

(** ** [test/utils.py] *)

Module TestUtils.

Definition len_text (text : string) : string := pretty (String.length text).

(** [text.replace("\n", "\\n")]. *)
Fixpoint escape_newlines (text : string) : string :=
  match text with
  | EmptyString => EmptyString
  | String c r =>
      if Ascii.eqb c (ascii_of_nat 10)
      then String "\"%char (String "n"%char (escape_newlines r))
      else String c (escape_newlines r)
  end.

(** [assert_if_strings_different]: what is printed, and the outcome.  The
    text of the assertion message, which [difflib] computes, is not
    modelled. *)
Definition assert_if_strings_different (expected_string actual_string : string)
  : list string * py_result () :=
  (["expected_string(" +:+ len_text expected_string +:+ ")>>"
      +:+ expected_string +:+ "<<";
    "actual_string  (" +:+ len_text actual_string +:+ ")>>"
      +:+ actual_string +:+ "<<"]%string,
   if String.eqb expected_string actual_string
   then inr ()
   else inl AssertionError).

Section Lists.
(** The elements of the two lists, with their [str], and the [str] of
    the lists themselves. *)
Context {E A : Type}.
Context (str_expected : E → string) (str_actual : A → string).
Context (str_expected_list : list E → string) (str_actual_list : list A → string).

(** The loop [for element_index in range(0, len(expected_tokens))], which
    is entered with two lists of one length, on the pairs of elements
    still to compare: what is printed, and the outcome. *)
Fixpoint compare_elements (tokens : list (E * A)) : list string * py_result () :=
  match tokens with
  | [] => ([], inr ())
  | (expected, actual) :: tokens =>
      let expected_str := str_expected expected in
      let actual_str := str_actual actual in
      let printed :=
        ["expected_tokens(" +:+ len_text expected_str +:+ ")>>"
           +:+ expected_str +:+ "<<";
         "actual_tokens  (" +:+ len_text actual_str +:+ ")>>"
           +:+ actual_str +:+ "<<"]%string in
      if String.eqb expected_str actual_str then
        let '(more, outcome) := compare_elements tokens in
        (printed ++ more, outcome)
      else (printed, inl AssertionError)
  end.

Definition assert_if_lists_different (expected_tokens : list E)
    (actual_tokens : list A) : list string * py_result () :=
  let newline := String (ascii_of_nat 10) EmptyString in
  let header :=
    [newline +:+ "---";
     "expected_tokens: " +:+ str_expected_list expected_tokens;
     "parsed_tokens  : " +:+ escape_newlines (str_actual_list actual_tokens)]%string in
  if negb (Nat.eqb (List.length expected_tokens) (List.length actual_tokens))
  then (header, inl AssertionError)
  else
    let '(printed, outcome) :=
      compare_elements (zip expected_tokens actual_tokens) in
    match outcome with
    | inl e => (header ++ ["---"%string] ++ printed, inl e)
    | inr _ =>
        (header ++ ["---"%string] ++ printed
           ++ ["---" +:+ newline +:+ "Token lists are equal." +:+ newline +:+ "---"]%string,
         inr ())
    end.

End Lists.
End TestUtils.

(** *** Further inputs for executions *)

Module MoreExamples.
Import PragmaExtension.

Definition rules2 : gmap string FoundPlugin :=
  <["md001" := {| plugin_id := "md001" |}]> PragmaExamples.rules.

(** Line 4 of one document in the standard spelling and line 4 of
    another in the alternate spelling, in one map. *)
Definition both_spellings : Store :=
  {| st_pragma_lines :=
       [(4, "<!-- pyml disable-next-line md001 -->");
        (-4, "<!--- pyml disable-next-line no-trailing-spaces, zzz -->")];
     st_document_pragmas := ∅;
     st_failures := [] |}.

(** The same ids, in another order, in another case and repeated, after
    a tab in place of the space that follows the command. *)
Definition ids_one_way : Store :=
  PragmaExamples.empty_store [(2, "<!-- pyml disable-next-line md001, MD009 -->")].
Definition other_way_line : string :=
  "<!-- pyml disable-next-line" +:+ String (ascii_of_nat 9)
    "md009,md001 , md001 -->".
Definition ids_other_way : Store :=
  PragmaExamples.empty_store [(2, other_way_line)].

(** A directory [docs] with a subdirectory, a markdown file and a text
    file beside it. *)
#[export] Instance demo_fs : FileSystem := {|
  os_path_exists := λ path,
    String.eqb path "docs" || String.eqb path "a.md"
    || String.eqb path "notes.txt";
  os_path_isdir := λ path, String.eqb path "docs";
  os_walk := λ path,
    if String.eqb path "docs"
    then [("docs", ["sub"], ["b.md"; "c.txt"]); ("docs/sub", [], ["d.md"])]
    else [];
|}.

(** A start of [main] in which the rule ["bad"] cannot be enabled, the
    tokenizer needs its default resources, and two configuration files
    cannot be loaded. *)
#[export] Instance demo_startup : @Startup ScanExamples.demo :=
  @Build_Startup ScanExamples.demo
    (* Config *) Z
    (* empty_config *) 0
    (* plugin_dir *) "plugins"
    (* PluginManager *) 0
    (* initialize *)
    (λ _ _ enable _ pm,
       if String.eqb enable "bad"
       then (inl (BadPluginError "no such rule"), pm)
       else (inr (), pm))
    (* TokenizedMarkdown *)
    (λ resource_path,
       match resource_path with
       | Some _ => inl (BadTokenizationError "no resources")
       | None => inr ()
       end)
    (* json_load *)
    (λ file,
       if String.eqb file "broken.json" then JSONDecodeError "Expecting value"
       else if String.eqb file "missing.json" then IOError "No such file"
       else JsonLoaded 0)
    (* apply_configuration *)
    (λ _ pm, (inr (), pm)).

Definition command_line0 : CommandLine :=
  {| list_files := false;
     enable_rules := "";
     disable_rules := "";
     x_test_init_fault := false;
     add_plugin := None;
     configuration_file := None;
     paths := ["docs"; "nowhere"; "a.md"];
     scan_args := ScanExamples.args0 |}.

Definition list_only : CommandLine :=
  {| list_files := true;
     enable_rules := "";
     disable_rules := "";
     x_test_init_fault := false;
     add_plugin := None;
     configuration_file := None;
     paths := ["docs"; "nowhere"; "a.md"];
     scan_args := ScanExamples.args0 |}.

Definition bad_rule : CommandLine :=
  {| list_files := false;
     enable_rules := "bad";
     disable_rules := "";
     x_test_init_fault := false;
     add_plugin := None;
     configuration_file := None;
     paths := ["a.md"];
     scan_args := ScanExamples.args_with_stack_trace |}.

Definition broken_configuration : CommandLine :=
  {| list_files := false;
     enable_rules := "";
     disable_rules := "";
     x_test_init_fault := false;
     add_plugin := None;
     configuration_file := Some "broken.json";
     paths := ["a.md"];
     scan_args := ScanExamples.args_with_stack_trace |}.

Definition process0 : PyMarkdownLintMain.Process :=
  {| PyMarkdownLintMain.run := ScanExamples.run0;
     PyMarkdownLintMain.stdout := [] |}.

End MoreExamples.

(** ** Notions used in the statements *)

(** The local variables of [compile_single_pragma] as functions of the
    signed key and of the stored line. *)
Module Directive.
Section Locals.
Context `{SP : ParserHelper.Spaces}.

Definition prefix_length (next_line_number : Z) : nat :=
  if 0 <? next_line_number
  then String.length PragmaToken.pragma_prefix
  else String.length PragmaToken.pragma_alternate_prefix.

Definition actual_line_number (next_line_number : Z) : Z :=
  if 0 <? next_line_number then next_line_number else - next_line_number.

Definition line_after_prefix (next_line_number : Z) (raw_line : string) : string :=
  PyStr.rstrip (PyStr.from (prefix_length next_line_number) raw_line).

Definition command_data (next_line_number : Z) (raw_line : string) : string :=
  let line := line_after_prefix next_line_number raw_line in
  match ParserHelper.extract_spaces line 0 with
  | Some (after_whitespace_index, _) =>
      PyStr.slice_to_end_minus
        (after_whitespace_index + String.length PragmaToken.pragma_title)
        (String.length PragmaToken.pragma_suffix) line
  | None => EmptyString
  end.

Definition after_command_index (next_line_number : Z) (raw_line : string) : nat :=
  match ParserHelper.extract_until_spaces
          (command_data next_line_number raw_line) 0 with
  | Some (index, _) => index
  | None => O
  end.

Definition command (next_line_number : Z) (raw_line : string) : string :=
  match ParserHelper.extract_until_spaces
          (command_data next_line_number raw_line) 0 with
  | Some (_, command) => PyStr.lower command
  | None => EmptyString
  end.

(** The comma-separated tokens of a [disable-next-line] directive. *)
Definition ids_to_disable (next_line_number : Z) (raw_line : string) : list string :=
  PyStr.split ","%char
    (PyStr.from (after_command_index next_line_number raw_line)
                (command_data next_line_number raw_line)).

Definition normalize (next_id : string) : string :=
  PyStr.lower (PyStr.strip next_id).

(** The canonical id that a token resolves to, if any. *)
Definition resolve (all_ids : gmap string FoundPlugin) (next_id : string)
  : option string :=
  if PyStr.is_empty (normalize next_id) then None
  else plugin_id <$> all_ids !! normalize next_id.

Definition resolved_ids (all_ids : gmap string FoundPlugin)
    (ids : list string) : gset string :=
  list_to_set (omap (resolve all_ids) ids).

(** The reports that one token gives rise to. *)
Definition id_failures (scan_file : string) (line : Z)
    (all_ids : gmap string FoundPlugin) (command next_id : string)
  : list (string * Z * string) :=
  if PyStr.is_empty (normalize next_id) then
    [(scan_file, line, PragmaExtension.blank_id_message command)]
  else
    match all_ids !! normalize next_id with
    | Some _ => []
    | None =>
        [(scan_file, line,
          PragmaExtension.unknown_id_message command (normalize next_id))]
    end.

End Locals.
End Directive.

(** The lines of a document go through [look_for_pragmas] one by one,
    numbered from [first]. *)
Fixpoint look_for_pragmas_in `{SP : ParserHelper.Spaces}
    (first : Z) (lines : list string)
    (parser_properties : ParseBlockPassProperties) : ParseBlockPassProperties :=
  match lines with
  | [] => parser_properties
  | line :: lines =>
      look_for_pragmas_in (first + 1) lines
        (PragmaExtension.look_for_pragmas
           {| line_number := first; index_number := 0 |}
           line 0 None parser_properties).2
  end.

(** The key under which a recognised line is stored. *)
Definition stored_key (position_marker : PositionMarker)
    (line_to_parse : string) : Z :=
  if PyStr.startswith line_to_parse PragmaToken.pragma_alternate_prefix
  then - line_number position_marker
  else line_number position_marker.

(** What [PragmaToken.__init__] writes for one entry of the map. *)
Definition entry_text (entry : Z * string) : string :=
  ";" +:+ pretty entry.1 +:+ ":" +:+ entry.2.

(** What a compilation does once the line is found in the map. *)
Definition dispatch `{SP : ParserHelper.Spaces}
    (scan_file : string) (next_line_number : Z)
    (all_ids : gmap string FoundPlugin) (σ : PragmaExtension.Store)
    (raw_line : string) : PragmaExtension.Store :=
  let line := Directive.actual_line_number next_line_number in
  let command := Directive.command next_line_number raw_line in
  if PyStr.is_empty command then
    PragmaExtension.log_pragma_failure scan_file line
      PragmaExtension.no_command_message σ
  else if String.eqb command "disable-next-line" then
    PragmaExtension.__handle_disable_next_line
      (Directive.command_data next_line_number raw_line)
      (Directive.after_command_index next_line_number raw_line)
      scan_file line all_ids command σ
  else
    PragmaExtension.log_pragma_failure scan_file line
      (PragmaExtension.not_understood_message command) σ.

(** The sign of every key tells which prefix the stored line begins
    with. *)
Definition sign_matches_prefix (d : PyDict.dict string) : Prop :=
  ∀ key raw_line,
    PyDict.get key d = Some raw_line →
    key ≠ 0
    ∧ PyStr.startswith raw_line PragmaToken.pragma_prefix = true
    ∧ (PyStr.startswith raw_line PragmaToken.pragma_alternate_prefix = true
       ↔ key < 0).

(** The files that one provided path contributes to the files to scan. *)
Definition found_under `{FS : FileSystem} (next_path file : string) : Prop :=
  os_path_exists next_path = true
  ∧ if os_path_isdir next_path then
      ∃ root dirs files name,
        (root, dirs, files) ∈ os_walk next_path
        ∧ name ∈ files
        ∧ file = root +:+ "/" +:+ name
        ∧ FileDiscovery.is_file_eligible_to_scan file = true
    else
      file = next_path
      ∧ FileDiscovery.is_file_eligible_to_scan next_path = true.

(** What one provided path makes [__determine_files_to_scan] print. *)
Definition path_messages `{FS : FileSystem} (next_path : string) : list string :=
  if negb (os_path_exists next_path) then
    [FileDiscovery.does_not_exist_message next_path]
  else if os_path_isdir next_path then []
  else if FileDiscovery.is_file_eligible_to_scan next_path then []
  else [FileDiscovery.not_markdown_message next_path].

(** The calls of a scan of a file that nothing interrupts. *)
Definition scan_calls `{C : Collaborators} (args : Args) (next_file : string)
  : list PyMarkdownLint.Call :=
  let lines := FileSourceProvider next_file in
  let source := if x_test_scan_fault args then None else Some lines in
  [PyMarkdownLint.Call_starting_new_file next_file]
  ++ imap (λ i line, PyMarkdownLint.Call_next_line (1 + Z.of_nat i) line) lines
  ++ [PyMarkdownLint.Call_transform_from_provider source]
  ++ match transform_from_provider source with
     | inr tokens =>
         map PyMarkdownLint.Call_next_token tokens
         ++ [PyMarkdownLint.Call_completed_file
               (Z.of_nat (List.length lines) + 1)]
     | inl _ => []
     end.

(** Every character of a text is of one kind. *)
Fixpoint all_chars (kind : ascii → bool) (s : string) : bool :=
  match s with
  | EmptyString => true
  | String c r => kind c && all_chars kind r
  end.

(** * Properties of the pragma extension *)

Section PyStrExamples.

Example split_keeps_empty_fields :
  PyStr.split ","%char " zzz, md009," = [" zzz"; " md009"; ""]%string.
Proof. reflexivity. Qed.

Example split_of_empty : PyStr.split ","%char "" = [""%string].
Proof. reflexivity. Qed.

Example rstrip_trailing_only :
  PyStr.rstrip "  a b  " = "  a b"%string ∧ PyStr.strip "  a b  " = "a b"%string.
Proof. split; reflexivity. Qed.

Example slice_before_suffix :
  PyStr.slice_to_end_minus 6 3 " pyml x y-->" = "x y"%string
  ∧ PyStr.slice_to_end_minus 6 3 "ab" = ""%string.
Proof. split; reflexivity. Qed.

Example lower_ascii : PyStr.lower "PyML Disable-Next-Line" = "pyml disable-next-line"%string.
Proof. reflexivity. Qed.

Example extract_until_spaces_first_token :
  ParserHelper.extract_until_spaces "disable-next-line md009" 0
  = Some (17%nat, "disable-next-line"%string)
  ∧ ParserHelper.extract_spaces "  pyml" 0 = Some (2%nat, "  "%string)
  ∧ ParserHelper.extract_spaces "ab" 3 = None.
Proof. repeat split; reflexivity. Qed.

End PyStrExamples.

Section PyDictFacts.
Context {V : Type}.
Implicit Types (d : PyDict.dict V) (k : Z) (v : V).

Lemma get_set_eq d k v : PyDict.get k (PyDict.set k v d) = Some v.
Proof.
  induction d as [|[k' v'] d IH]; simpl.
  - by rewrite Z.eqb_refl.
  - destruct (Z.eqb k k') eqn:E; simpl.
    + by rewrite Z.eqb_refl.
    + by rewrite E.
Qed.

Lemma get_set_ne d k k' v :
  k' ≠ k → PyDict.get k' (PyDict.set k v d) = PyDict.get k' d.
Proof.
  intros Hne. induction d as [|[k0 v0] d IH]; simpl.
  - by apply Z.eqb_neq in Hne as ->.
  - destruct (Z.eqb k k0) eqn:E; simpl.
    + apply Z.eqb_eq in E as <-. by apply Z.eqb_neq in Hne as ->.
    + by rewrite IH.
Qed.

Lemma keys_set d k v :
  PyDict.keys (PyDict.set k v d)
  = if decide (k ∈ PyDict.keys d) then PyDict.keys d else PyDict.keys d ++ [k].
Proof.
  unfold PyDict.keys. induction d as [|[k' v'] d IH]; simpl.
  - destruct (decide (k ∈ [])) as [H|H]; [by apply elem_of_nil in H | done].
  - destruct (Z.eqb k k') eqn:E; simpl.
    + apply Z.eqb_eq in E as <-. clear IH.
      case_decide; [done | exfalso].
      match goal with H : _ ∉ _ |- _ => apply H, elem_of_cons; by left end.
    + apply Z.eqb_neq in E. rewrite IH.
      destruct (decide (k ∈ map fst d)) as [H|H];
        destruct (decide (k ∈ k' :: map fst d)) as [H'|H']; try done.
      * exfalso. apply H', elem_of_cons. by right.
      * apply elem_of_cons in H' as [?|?]; done.
Qed.

(** With one entry per key, looking up the key of an entry gives back
    the entry's value. *)
Lemma get_entry d k v :
  NoDup (PyDict.keys d) → (k, v) ∈ d → PyDict.get k d = Some v.
Proof.
  unfold PyDict.keys.
  induction d as [|[k' v'] d IH]; simpl; intros Hnd Hin.
  - by apply elem_of_nil in Hin.
  - apply NoDup_cons in Hnd as [Hk Hnd].
    apply elem_of_cons in Hin as [[= -> ->] | Hin].
    + by rewrite Z.eqb_refl.
    + destruct (Z.eqb k k') eqn:E; [|by apply IH].
      apply Z.eqb_eq in E as <-. exfalso. apply Hk.
      by apply (list_elem_of_fmap_2 fst _ (k, v)).
Qed.

End PyDictFacts.

Section Recognition.
Import PragmaExtension.
Context `{SP : ParserHelper.Spaces}.

(** C7. A line presented with a container depth above zero, or with
    extracted leading whitespace that is not empty, is not recognised:
    [look_for_pragmas] returns [False] and the pragma map is as before,
    whatever the text of the line. *)
Theorem look_for_pragmas_nested_or_indented
    (position_marker : PositionMarker) (line_to_parse : string)
    (container_depth : Z) (extracted_whitespace : option string)
    (parser_properties : ParseBlockPassProperties) :
  0 < container_depth
  ∨ (∃ ws, extracted_whitespace = Some ws ∧ ws ≠ EmptyString) →
  look_for_pragmas position_marker line_to_parse container_depth
    extracted_whitespace parser_properties
  = (false, parser_properties).
Proof.
  intros [Hdepth | (ws & -> & Hws)]; unfold look_for_pragmas.
  - assert (Z.eqb container_depth 0 = false) as -> by lia. done.
  - destruct ws as [|c ws]; [done|]. simpl.
    by rewrite andb_false_r.
Qed.

Lemma startswith_alternate_standard (s : string) :
  PyStr.startswith s PragmaToken.pragma_alternate_prefix = true →
  PyStr.startswith s PragmaToken.pragma_prefix = true.
Proof.
  unfold PragmaToken.pragma_alternate_prefix, PragmaToken.pragma_prefix.
  destruct s as [|c1 [|c2 [|c3 [|c4 [|c5 s]]]]]; simpl;
    rewrite ?andb_false_r; try done.
  intros H. repeat (apply andb_prop in H as [? H]).
  by repeat (apply andb_true_intro; split).
Qed.

(** C8. A line that [look_for_pragmas] recognises begins with the
    standard prefix, and the call stores exactly one entry, the raw
    line: under [+line_number] when the line does not begin with the
    alternate prefix, under [-line_number] when it does.  Every other
    key of the map, the key of the opposite sign among them, is as
    before. *)
Theorem look_for_pragmas_stores_one_key
    (position_marker : PositionMarker) (line_to_parse : string)
    (container_depth : Z) (extracted_whitespace : option string)
    (parser_properties parser_properties' : ParseBlockPassProperties) :
  look_for_pragmas position_marker line_to_parse container_depth
    extracted_whitespace parser_properties
  = (true, parser_properties') →
  let key := stored_key position_marker line_to_parse in
  PyStr.startswith line_to_parse PragmaToken.pragma_prefix = true
  ∧ key = (if PyStr.startswith line_to_parse PragmaToken.pragma_alternate_prefix
           then - line_number position_marker
           else line_number position_marker)
  ∧ pragma_lines parser_properties'
    = PyDict.set key line_to_parse (pragma_lines parser_properties)
  ∧ PyDict.get key (pragma_lines parser_properties') = Some line_to_parse
  ∧ (∀ k, k ≠ key →
       PyDict.get k (pragma_lines parser_properties')
       = PyDict.get k (pragma_lines parser_properties))
  ∧ (line_number position_marker ≠ 0 →
       PyDict.get (- key) (pragma_lines parser_properties')
       = PyDict.get (- key) (pragma_lines parser_properties)).
Proof.
  unfold look_for_pragmas, stored_key.
  destruct (Z.eqb container_depth 0
            && match extracted_whitespace with
               | Some ws => PyStr.is_empty ws
               | None => true
               end
            && (PyStr.startswith line_to_parse PragmaToken.pragma_prefix
                || PyStr.startswith line_to_parse
                     PragmaToken.pragma_alternate_prefix)) eqn:Hguard;
    [|done].
  match goal with
  | |- context [if ?b then (true, _) else _] => destruct b; [|done]
  end.
  intros [= <-]. simpl.
  apply andb_prop in Hguard as [_ Hprefix].
  assert (PyStr.startswith line_to_parse PragmaToken.pragma_prefix = true)
    as Hstd.
  { apply orb_prop in Hprefix as [?|?];
      [done | by apply startswith_alternate_standard]. }
  split_and!; try done.
  - apply get_set_eq.
  - intros k Hk. by apply get_set_ne.
  - intros Hln. apply get_set_ne.
    destruct (PyStr.startswith _ PragmaToken.pragma_alternate_prefix); lia.
Qed.

End Recognition.

Section RecognitionRuns.
Import PragmaExtension.

Lemma look_for_pragmas_nested_or_indented_witness :
  (0 < 2 ∨ (∃ ws, Some "  "%string = Some ws ∧ ws ≠ EmptyString))
  ∧ look_for_pragmas {| line_number := 7; index_number := 0 |}
      PragmaExamples.line1 2 (Some "  "%string) {| pragma_lines := [] |}
    = (false, {| pragma_lines := [] |}).
Proof.
  split; [left; lia|].
  apply look_for_pragmas_nested_or_indented. left. lia.
Defined.

Lemma look_for_pragmas_stores_one_key_witness :
  look_for_pragmas PragmaExamples.marker4 PragmaExamples.alternate_line
    0 None PragmaExamples.before4
  = (true, PragmaExamples.after4)
  ∧ stored_key PragmaExamples.marker4 PragmaExamples.alternate_line = -4
  ∧ PyDict.get 4 (pragma_lines PragmaExamples.after4)
    = PyDict.get 4 (pragma_lines PragmaExamples.before4).
Proof.
  assert (look_for_pragmas PragmaExamples.marker4
            PragmaExamples.alternate_line 0 None PragmaExamples.before4
          = (true, PragmaExamples.after4)) as Hrun by reflexivity.
  split; [exact Hrun|]. split; [reflexivity|].
  destruct (look_for_pragmas_stores_one_key (SP := ParserHelper.ascii_whitespace) _ _ _ _ _ _ Hrun)
    as (_ & _ & _ & _ & _ & Hother).
  apply Hother. simpl. lia.
Defined.

(** A tab after the prefix is passed over as a space is: the line
    [<!--<TAB>pyml disable-next-line<TAB>md009 -->] is recognised. *)
Example tab_after_the_prefix :
  look_for_pragmas {| line_number := 2; index_number := 0 |}
    ("<!--" +:+ String (ascii_of_nat 9) "pyml disable-next-line"
     +:+ String (ascii_of_nat 9) "md009 -->")
    0 None {| pragma_lines := [] |}
  = (true,
     {| pragma_lines :=
          [(2, "<!--" +:+ String (ascii_of_nat 9) "pyml disable-next-line"
               +:+ String (ascii_of_nat 9) "md009 -->")] |}).
Proof. reflexivity. Qed.

End RecognitionRuns.

Section Serialization.

(** C9. The token built from the map with the single entry
    [1: "<!-- pyml disable-next-line no-trailing-spaces -->"] has the
    payload ["1:<!-- pyml disable-next-line no-trailing-spaces -->"]. *)
Theorem pragma_token_singleton_payload :
  extra_data (PragmaToken.base
    (PragmaToken.init
       (PyDict.set 1 "<!-- pyml disable-next-line no-trailing-spaces -->" [])))
  = "1:<!-- pyml disable-next-line no-trailing-spaces -->"%string.
Proof. reflexivity. Qed.

(** C3, as amended.  The map is visited in the order in which its keys
    were first stored: storing under a key that is present leaves the
    order as it is, storing under a new key puts that key last.  The
    payload of the token is the concatenation of [;<key>:<raw text>]
    over the entries in that order, without its first character. *)
Theorem pragma_token_payload_in_insertion_order
    (pragma_lines : PyDict.dict string) (key : Z) (text : string) :
  NoDup (PyDict.keys pragma_lines) →
  PyDict.keys (PyDict.set key text pragma_lines)
  = (if decide (key ∈ PyDict.keys pragma_lines)
     then PyDict.keys pragma_lines
     else PyDict.keys pragma_lines ++ [key])
  ∧ extra_data (PragmaToken.base (PragmaToken.init pragma_lines))
    = PyStr.from 1 (PyStr.join (map entry_text pragma_lines)).
Proof.
  intros Hnd. split; [apply keys_set|].
  unfold PragmaToken.init, PragmaToken.serialized_pragmas.
  cbn [extra_data PragmaToken.base]. do 2 f_equal.
  unfold PyDict.keys. rewrite map_map.
  apply map_ext_in. intros [k v] Hin%list_elem_of_In.
  unfold PragmaToken.serialize_entry, entry_text. simpl.
  by rewrite (get_entry _ _ _ Hnd Hin).
Qed.

Lemma pragma_token_payload_in_insertion_order_witness :
  NoDup (PyDict.keys PragmaExamples.two_entries)
  ∧ extra_data (PragmaToken.base (PragmaToken.init PragmaExamples.two_entries))
    = PyStr.from 1 (PyStr.join (map entry_text PragmaExamples.two_entries)).
Proof.
  assert (NoDup (PyDict.keys PragmaExamples.two_entries)) as Hnd.
  { apply NoDup_cons. split.
    - intros H. apply list_elem_of_singleton in H. discriminate H.
    - apply NoDup_cons. split; [apply not_elem_of_nil | apply NoDup_nil_2]. }
  split; [exact Hnd|].
  exact (proj2 (pragma_token_payload_in_insertion_order _ 3 "c" Hnd)).
Defined.

(** C3, as stated, fails.  A document whose first and third lines use
    the standard prefix and whose second line uses the alternate one
    gives a map that is visited, and serialised, in the order 1, -2, 3,
    which is not the numeric order of the keys in either direction. *)
Lemma pragma_lines_not_in_numeric_order :
  PyDict.keys (pragma_lines
    (look_for_pragmas_in 1 PragmaExamples.mixed_document
       {| pragma_lines := [] |}))
  = [1; -2; 3]
  ∧ ¬ Sorted Z.le (PyDict.keys (pragma_lines
        (look_for_pragmas_in 1 PragmaExamples.mixed_document
           {| pragma_lines := [] |})))
  ∧ ¬ Sorted Z.ge (PyDict.keys (pragma_lines
        (look_for_pragmas_in 1 PragmaExamples.mixed_document
           {| pragma_lines := [] |})))
  ∧ extra_data (PragmaToken.base (PragmaToken.init (pragma_lines
        (look_for_pragmas_in 1 PragmaExamples.mixed_document
           {| pragma_lines := [] |}))))
    = ("1:<!-- pyml disable-next-line md001 -->"
       +:+ ";-2:<!--- pyml disable-next-line md002 -->"
       +:+ ";3:<!-- pyml disable-next-line md003 -->")%string.
Proof.
  assert (PyDict.keys (pragma_lines
            (look_for_pragmas_in 1 PragmaExamples.mixed_document
               {| pragma_lines := [] |})) = [1; -2; 3]) as Hkeys
    by reflexivity.
  split; [exact Hkeys|]. rewrite Hkeys. split; [|split].
  - intros H. inversion H as [|? ? _ Hhd]; subst.
    inversion Hhd as [|? ? Hle]; subst. lia.
  - intros H. inversion H as [|? ? Htl _]; subst.
    inversion Htl as [|? ? _ Hhd]; subst.
    inversion Hhd as [|? ? Hge]; subst. lia.
  - reflexivity.
Qed.

End Serialization.

Section Compilation.
Import PragmaExtension.
Context `{SP : ParserHelper.Spaces}.

Implicit Types (all_ids : gmap string FoundPlugin) (σ : Store).

Lemma actual_line_number_abs (n : Z) : Directive.actual_line_number n = Z.abs n.
Proof. unfold Directive.actual_line_number. destruct (Z.ltb_spec 0 n); lia. Qed.

(** The loop of [__handle_disable_next_line]: the ids resolved are
    added to [processed_ids], the reports are appended, nothing else
    is touched. *)
Lemma disable_next_line_loop scan_file line all_ids command ids
    (processed : gset string) σ :
  foldl (disable_next_line_step scan_file line all_ids command)
        (processed, σ) ids
  = (Directive.resolved_ids all_ids ids ∪ processed,
     {| st_pragma_lines := st_pragma_lines σ;
        st_document_pragmas := st_document_pragmas σ;
        st_failures :=
          st_failures σ
          ++ flat_map (Directive.id_failures scan_file line all_ids command)
                      ids |}).
Proof.
  revert processed σ. induction ids as [|next_id ids IH]; intros processed σ.
  - simpl. rewrite app_nil_r. destruct σ. f_equal.
    unfold Directive.resolved_ids. simpl. by rewrite (left_id_L ∅ (∪)).
  - simpl. unfold disable_next_line_step at 2.
    unfold Directive.resolved_ids, Directive.id_failures, Directive.resolve.
    fold (Directive.normalize next_id). simpl.
    destruct (PyStr.is_empty (Directive.normalize next_id)).
    + rewrite IH. simpl. by rewrite <- (assoc_L (++)).
    + destruct (all_ids !! Directive.normalize next_id) as [found|]; simpl.
      * rewrite IH. f_equal. apply set_eq. intros x.
        rewrite !elem_of_union, elem_of_singleton. tauto.
      * rewrite IH. simpl. by rewrite <- (assoc_L (++)).
Qed.

Lemma compile_single_pragma_dispatch scan_file next_line_number all_ids σ raw_line :
  PyDict.get next_line_number (st_pragma_lines σ) = Some raw_line →
  compile_single_pragma scan_file next_line_number all_ids σ
  = inr (dispatch scan_file next_line_number all_ids σ raw_line).
Proof.
  intros Hget.
  unfold compile_single_pragma, dispatch, Directive.command,
    Directive.after_command_index, Directive.command_data,
    Directive.line_after_prefix, Directive.prefix_length,
    Directive.actual_line_number.
  unfold ParserHelper.extract_spaces, ParserHelper.extract_until_spaces.
  cbn [Nat.leb].
  destruct (0 <? next_line_number); rewrite Hget;
    (destruct (PyStr.is_empty _); [reflexivity|]);
    destruct (String.eqb _ _); reflexivity.
Qed.

Lemma handle_disable_next_line_result command_data after_command_index
    scan_file line all_ids command σ :
  let ids := PyStr.split ","%char (PyStr.from after_command_index command_data) in
  let resolved := Directive.resolved_ids all_ids ids in
  __handle_disable_next_line command_data after_command_index scan_file line
    all_ids command σ
  = {| st_pragma_lines := st_pragma_lines σ;
       st_document_pragmas :=
         if decide (resolved = ∅) then st_document_pragmas σ
         else <[line + 1 := resolved]> (st_document_pragmas σ);
       st_failures :=
         st_failures σ
         ++ flat_map (Directive.id_failures scan_file line all_ids command) ids |}.
Proof.
  intros ids resolved. unfold __handle_disable_next_line.
  fold ids. rewrite disable_next_line_loop. fold resolved.
  rewrite (right_id_L ∅ (∪)).
  destruct (decide (resolved = ∅)) as [Heq|Hne].
  - by rewrite bool_decide_eq_true_2.
  - by rewrite bool_decide_eq_false_2.
Qed.

Lemma is_empty_true (s : string) : PyStr.is_empty s = true ↔ s = EmptyString.
Proof. by destruct s. Qed.

Lemma is_empty_false (s : string) : PyStr.is_empty s = false ↔ s ≠ EmptyString.
Proof. by destruct s. Qed.

Lemma dispatch_disable_next_line scan_file key all_ids σ raw_line :
  Directive.command key raw_line = "disable-next-line"%string →
  let resolved :=
    Directive.resolved_ids all_ids (Directive.ids_to_disable key raw_line) in
  dispatch scan_file key all_ids σ raw_line
  = {| st_pragma_lines := st_pragma_lines σ;
       st_document_pragmas :=
         if decide (resolved = ∅) then st_document_pragmas σ
         else <[Z.abs key + 1 := resolved]> (st_document_pragmas σ);
       st_failures :=
         st_failures σ
         ++ flat_map (Directive.id_failures scan_file (Z.abs key) all_ids
                        "disable-next-line")
                     (Directive.ids_to_disable key raw_line) |}.
Proof.
  intros Hcommand resolved. unfold dispatch. rewrite Hcommand. simpl.
  rewrite handle_disable_next_line_result.
  by rewrite actual_line_number_abs.
Qed.

(** C2. A directive on line [N] (stored under the key [+N] or [-N])
    whose command is [disable-next-line] and whose list resolves to at
    least one plugin: compilation succeeds and stores one entry, at
    [N + 1]; the entries at [N], at [N + 2] and at every other line are
    as before.  The value stored is the set of the [plugin_id]s of the
    plugins that the listed tokens resolve to in [all_ids].  The command
    is the text that [ParserHelper.extract_until_spaces] returns,
    lower-cased, whatever characters end it: a tab as well as a space
    when they are the whitespace of ASCII. *)
Theorem disable_next_line_stores_next_line
    scan_file (key : Z) all_ids σ (raw_line : string) :
  PyDict.get key (st_pragma_lines σ) = Some raw_line →
  Directive.command key raw_line = "disable-next-line"%string →
  Directive.resolved_ids all_ids (Directive.ids_to_disable key raw_line) ≠ ∅ →
  ∃ σ' (processed_ids : gset string),
    compile_single_pragma scan_file key all_ids σ = inr σ'
    ∧ st_document_pragmas σ'
      = <[Z.abs key + 1 := processed_ids]> (st_document_pragmas σ)
    ∧ st_document_pragmas σ' !! (Z.abs key + 1) = Some processed_ids
    ∧ st_document_pragmas σ' !! Z.abs key = st_document_pragmas σ !! Z.abs key
    ∧ st_document_pragmas σ' !! (Z.abs key + 2)
      = st_document_pragmas σ !! (Z.abs key + 2)
    ∧ (∀ line, line ≠ Z.abs key + 1 →
         st_document_pragmas σ' !! line = st_document_pragmas σ !! line)
    ∧ (∀ id, id ∈ processed_ids ↔
         ∃ next_id found,
           next_id ∈ Directive.ids_to_disable key raw_line
           ∧ Directive.normalize next_id ≠ EmptyString
           ∧ all_ids !! Directive.normalize next_id = Some found
           ∧ id = plugin_id found).
Proof.
  intros Hget Hcommand Hresolved.
  eexists _, (Directive.resolved_ids all_ids
                (Directive.ids_to_disable key raw_line)).
  rewrite (compile_single_pragma_dispatch _ _ _ _ _ Hget).
  rewrite (dispatch_disable_next_line _ _ _ _ _ Hcommand). simpl.
  rewrite decide_False by done.
  split_and!; try done.
  - apply lookup_insert_eq.
  - apply lookup_insert_ne. lia.
  - apply lookup_insert_ne. lia.
  - intros line Hline. by apply lookup_insert_ne.
  - intros id. unfold Directive.resolved_ids.
    rewrite elem_of_list_to_set, list_elem_of_omap.
    unfold Directive.resolve. split.
    + intros (next_id & Hin & Hres).
      destruct (PyStr.is_empty (Directive.normalize next_id)) eqn:E; [done|].
      apply is_empty_false in E.
      destruct (all_ids !! Directive.normalize next_id) as [found|] eqn:F;
        [|done].
      injection Hres as <-. by exists next_id, found.
    + intros (next_id & found & Hin & Hne & Hfound & ->).
      exists next_id. split; [done|].
      apply is_empty_false in Hne. by rewrite Hne, Hfound.
Qed.

(** C5. For a [disable-next-line] directive on line [N], compilation
    succeeds and the reports made are, token by token and in the order
    of the list: for a token whose trimmed, lower-cased name is not in
    [all_ids], the one report "Inline configuration command
    'disable-next-line' unable to find a plugin with the id '<name>'.",
    on line [N], with that name in it; for a token that is blank once
    trimmed, the one report "Inline configuration command
    'disable-next-line' specified a plugin with a blank id."; for a
    token that is in [all_ids], none.  The tokens that are in [all_ids]
    have their canonical ids in the set whatever the other tokens are;
    the set is stored at line [N + 1] when it is not empty, and the
    suppression table is as before when it is empty. *)
Theorem disable_next_line_unknown_ids
    scan_file (key : Z) all_ids σ (raw_line : string) :
  PyDict.get key (st_pragma_lines σ) = Some raw_line →
  Directive.command key raw_line = "disable-next-line"%string →
  ∃ σ' (processed_ids : gset string),
    compile_single_pragma scan_file key all_ids σ = inr σ'
    ∧ st_failures σ'
      = st_failures σ
        ++ flat_map
             (λ next_id,
                if PyStr.is_empty (PyStr.lower (PyStr.strip next_id)) then
                  [(scan_file, Z.abs key,
                    "Inline configuration command 'disable-next-line' specified a plugin with a blank id."%string)]
                else
                  match all_ids !! PyStr.lower (PyStr.strip next_id) with
                  | Some _ => []
                  | None =>
                      [(scan_file, Z.abs key,
                        ("Inline configuration command 'disable-next-line' unable to find a plugin with the id '"
                         +:+ PyStr.lower (PyStr.strip next_id) +:+ "'.")%string)]
                  end)
             (PyStr.split ","%char
                (PyStr.from (Directive.after_command_index key raw_line)
                   (Directive.command_data key raw_line)))
    ∧ (∀ id, id ∈ processed_ids ↔
         ∃ next_id found,
           next_id ∈ PyStr.split ","%char
                       (PyStr.from (Directive.after_command_index key raw_line)
                          (Directive.command_data key raw_line))
           ∧ PyStr.lower (PyStr.strip next_id) ≠ EmptyString
           ∧ all_ids !! PyStr.lower (PyStr.strip next_id) = Some found
           ∧ id = plugin_id found)
    ∧ (processed_ids ≠ ∅ →
       st_document_pragmas σ'
       = <[Z.abs key + 1 := processed_ids]> (st_document_pragmas σ))
    ∧ (processed_ids = ∅ →
       st_document_pragmas σ' = st_document_pragmas σ)
    ∧ st_pragma_lines σ' = st_pragma_lines σ.
Proof.
  intros Hget Hcommand.
  eexists _, (Directive.resolved_ids all_ids
                (Directive.ids_to_disable key raw_line)).
  rewrite (compile_single_pragma_dispatch _ _ _ _ _ Hget).
  rewrite (dispatch_disable_next_line _ _ _ _ _ Hcommand). simpl.
  split_and!; try done.
  - intros id. unfold Directive.resolved_ids.
    rewrite elem_of_list_to_set, list_elem_of_omap.
    unfold Directive.resolve, Directive.normalize. split.
    + intros (next_id & Hin & Hres).
      destruct (PyStr.is_empty (PyStr.lower (PyStr.strip next_id))) eqn:E;
        [done|].
      apply is_empty_false in E.
      destruct (all_ids !! PyStr.lower (PyStr.strip next_id)) as [found|] eqn:F;
        [|done].
      injection Hres as <-. by exists next_id, found.
    + intros (next_id & found & Hin & Hne & Hfound & ->).
      exists next_id. split; [done|].
      apply is_empty_false in Hne. by rewrite Hne, Hfound.
  - intros Hne. by rewrite decide_False.
  - intros Heq. by rewrite decide_True.
Qed.

(** C6. A directive whose command is empty gets one report, "specified
    without command"; a directive whose command is neither empty nor
    [disable-next-line] gets one report, "command '...' not understood",
    with the command in it.  In both cases compilation returns
    normally, the report is the only change, and the suppression table
    is as before.  The command is the text that
    [ParserHelper.extract_until_spaces] returns, lower-cased, whatever
    characters end it. *)
Theorem unusable_command_reported_once
    scan_file (key : Z) all_ids σ (raw_line : string) :
  PyDict.get key (st_pragma_lines σ) = Some raw_line →
  Directive.command key raw_line ≠ "disable-next-line"%string →
  ∃ σ',
    compile_single_pragma scan_file key all_ids σ = inr σ'
    ∧ st_failures σ'
      = st_failures σ
        ++ [(scan_file, Z.abs key,
             if decide (Directive.command key raw_line = EmptyString)
             then "Inline configuration specified without command."%string
             else ("Inline configuration command '"
                   +:+ Directive.command key raw_line
                   +:+ "' not understood.")%string)]
    ∧ st_document_pragmas σ' = st_document_pragmas σ
    ∧ st_pragma_lines σ' = st_pragma_lines σ.
Proof.
  intros Hget Hcommand.
  rewrite (compile_single_pragma_dispatch _ _ _ _ _ Hget).
  unfold dispatch. rewrite actual_line_number_abs.
  destruct (decide (Directive.command key raw_line = EmptyString)) as [He|He].
  - rewrite He. simpl. by eexists.
  - apply is_empty_false in He as ->.
    apply String.eqb_neq in Hcommand as ->. by eexists.
Qed.

(** C10. A compilation whose key is in the pragma map returns normally
    with the pragma map as it was and with reports only appended; and
    when the directive does not pass validation (an empty command, a
    command other than [disable-next-line], or a list that resolves to
    no plugin) the suppression table is as it was.  The command is the
    text that [ParserHelper.extract_until_spaces] returns, lower-cased,
    whatever characters end it. *)
Theorem compile_single_pragma_frame
    scan_file (key : Z) all_ids σ (raw_line : string) :
  PyDict.get key (st_pragma_lines σ) = Some raw_line →
  ∃ σ',
    compile_single_pragma scan_file key all_ids σ = inr σ'
    ∧ st_pragma_lines σ' = st_pragma_lines σ
    ∧ (∃ reports, st_failures σ' = st_failures σ ++ reports)
    ∧ (Directive.command key raw_line = EmptyString
       ∨ Directive.command key raw_line ≠ "disable-next-line"%string
       ∨ Directive.resolved_ids all_ids
           (Directive.ids_to_disable key raw_line) = ∅ →
       st_document_pragmas σ' = st_document_pragmas σ).
Proof.
  intros Hget.
  rewrite (compile_single_pragma_dispatch _ _ _ _ _ Hget).
  destruct (decide (Directive.command key raw_line
                    = "disable-next-line"%string)) as [Hcommand|Hcommand].
  - rewrite (dispatch_disable_next_line _ _ _ _ _ Hcommand).
    eexists. split; [done|]. simpl. split_and!; [done | by eexists |].
    intros [He | [Hne | Hnone]].
    + by rewrite Hcommand in He.
    + done.
    + by rewrite decide_True.
  - unfold dispatch.
    destruct (PyStr.is_empty (Directive.command key raw_line)).
    + eexists. split; [done|]. simpl. split_and!; [done | by eexists | done].
    + apply String.eqb_neq in Hcommand as ->.
      eexists. split; [done|]. simpl. split_and!; [done | by eexists | done].
Qed.

End Compilation.

Section CompilationRuns.
Import PragmaExtension.

Lemma disable_next_line_stores_next_line_witness :
  PyDict.get (-4) (st_pragma_lines PragmaExamples.alias_store)
  = Some PragmaExamples.alias_line
  ∧ Directive.command (-4) PragmaExamples.alias_line = "disable-next-line"%string
  ∧ ∃ σ' (processed_ids : gset string),
      compile_single_pragma "f.md" (-4) PragmaExamples.rules
        PragmaExamples.alias_store = inr σ'
      ∧ st_document_pragmas σ' !! 5 = Some processed_ids
      ∧ st_document_pragmas σ' !! 4 = None
      ∧ st_document_pragmas σ' !! 6 = None.
Proof.
  split; [reflexivity|]. split; [reflexivity|].
  destruct (disable_next_line_stores_next_line (SP := ParserHelper.ascii_whitespace) "f.md" (-4)
              PragmaExamples.rules PragmaExamples.alias_store
              PragmaExamples.alias_line eq_refl eq_refl)
    as (σ' & processed_ids & Hrun & _ & H5 & H4 & H6 & _).
  { intros Hempty.
    assert ("md009"%string ∈ Directive.resolved_ids PragmaExamples.rules
              (Directive.ids_to_disable (-4) PragmaExamples.alias_line))
      as Hin by (apply elem_of_list_to_set; vm_compute; apply elem_of_cons; by left).
    rewrite Hempty in Hin. by apply not_elem_of_empty in Hin. }
  exists σ', processed_ids. split_and!; [exact Hrun | exact H5 | exact H4 | exact H6].
Defined.

Lemma disable_next_line_unknown_ids_witness :
  PyDict.get (-4) (st_pragma_lines PragmaExamples.alias_store)
  = Some PragmaExamples.alias_line
  ∧ Directive.command (-4) PragmaExamples.alias_line = "disable-next-line"%string
  ∧ ∃ σ' (processed_ids : gset string),
      compile_single_pragma "f.md" (-4) PragmaExamples.rules
        PragmaExamples.alias_store = inr σ'
      ∧ st_failures σ'
        = [("f.md"%string, 4,
            "Inline configuration command 'disable-next-line' unable to find a plugin with the id 'zzz'."%string);
           ("f.md"%string, 4,
            "Inline configuration command 'disable-next-line' specified a plugin with a blank id."%string)]
      ∧ "md009"%string ∈ processed_ids
      ∧ st_document_pragmas σ' = <[5 := processed_ids]> ∅.
Proof.
  split; [reflexivity|]. split; [reflexivity|].
  destruct (disable_next_line_unknown_ids (SP := ParserHelper.ascii_whitespace) "f.md" (-4)
              PragmaExamples.rules PragmaExamples.alias_store
              PragmaExamples.alias_line eq_refl eq_refl)
    as (σ' & processed_ids & Hrun & Hfailures & Hids & Hstored & _).
  assert ("md009"%string ∈ processed_ids) as Hin.
  { apply Hids. exists " No-Trailing-Spaces"%string, {| plugin_id := "md009" |}.
    split_and!; [|discriminate|reflexivity|reflexivity].
    vm_compute. apply elem_of_cons. right. apply elem_of_cons. by left. }
  exists σ', processed_ids. split; [exact Hrun|].
  split; [rewrite Hfailures; reflexivity|]. split; [exact Hin|].
  apply Hstored. intros Hempty. rewrite Hempty in Hin.
  by apply not_elem_of_empty in Hin.
Defined.

Lemma unusable_command_reported_once_witness :
  (PyDict.get 2 (st_pragma_lines PragmaExamples.no_command_store)
   = Some "<!-- pyml -->"%string
   ∧ ∃ σ',
       compile_single_pragma "f.md" 2 PragmaExamples.rules
         PragmaExamples.no_command_store = inr σ'
       ∧ st_failures σ'
         = [("f.md"%string, 2,
             "Inline configuration specified without command."%string)]
       ∧ st_document_pragmas σ' = ∅)
  ∧ (PyDict.get 3 (st_pragma_lines PragmaExamples.enable_store)
     = Some "<!-- pyml Enable md009 -->"%string
     ∧ ∃ σ',
         compile_single_pragma "f.md" 3 PragmaExamples.rules
           PragmaExamples.enable_store = inr σ'
         ∧ st_failures σ'
           = [("f.md"%string, 3,
               "Inline configuration command 'enable' not understood."%string)]
         ∧ st_document_pragmas σ' = ∅).
Proof.
  split; (split; [reflexivity|]).
  - destruct (unusable_command_reported_once (SP := ParserHelper.ascii_whitespace) "f.md" 2 PragmaExamples.rules
                PragmaExamples.no_command_store "<!-- pyml -->" eq_refl)
      as (σ' & Hrun & Hfailures & Hdocs & _); [discriminate|].
    exists σ'. split; [exact Hrun|]. split; [exact Hfailures | exact Hdocs].
  - destruct (unusable_command_reported_once (SP := ParserHelper.ascii_whitespace) "f.md" 3 PragmaExamples.rules
                PragmaExamples.enable_store "<!-- pyml Enable md009 -->" eq_refl)
      as (σ' & Hrun & Hfailures & Hdocs & _); [discriminate|].
    exists σ'. split; [exact Hrun|]. split; [exact Hfailures | exact Hdocs].
Defined.

Lemma compile_single_pragma_frame_witness :
  PyDict.get 6 (st_pragma_lines PragmaExamples.unknown_only_store)
  = Some "<!-- pyml disable-next-line zzz -->"%string
  ∧ ∃ σ',
      compile_single_pragma "f.md" 6 PragmaExamples.rules
        PragmaExamples.unknown_only_store = inr σ'
      ∧ st_pragma_lines σ'
        = st_pragma_lines PragmaExamples.unknown_only_store
      ∧ st_document_pragmas σ'
        = st_document_pragmas PragmaExamples.unknown_only_store.
Proof.
  split; [reflexivity|].
  destruct (compile_single_pragma_frame (SP := ParserHelper.ascii_whitespace) "f.md" 6 PragmaExamples.rules
              PragmaExamples.unknown_only_store
              "<!-- pyml disable-next-line zzz -->" eq_refl)
    as (σ' & Hrun & Hlines & _ & Hdocs).
  exists σ'. split; [exact Hrun|]. split; [exact Hlines|].
  apply Hdocs. right. right. reflexivity.
Defined.

(** A tab ends the command as a space does: the directive
    [<!-- pyml disable-next-line<TAB>md009 -->] on line 2 has the command
    [disable-next-line] and suppresses [md009] on line 3, without a
    report. *)
Example tab_ends_the_command :
  Directive.command 2 PragmaExamples.tab_line = "disable-next-line"%string
  ∧ compile_single_pragma "f.md" 2 PragmaExamples.rules PragmaExamples.tab_store
    = inr {| st_pragma_lines := [(2, PragmaExamples.tab_line)];
             st_document_pragmas := {[ 3 := {[ "md009"%string ]} ]};
             st_failures := [] |}.
Proof.
  assert (Directive.command 2 PragmaExamples.tab_line
          = "disable-next-line"%string) as Hcommand by reflexivity.
  split; [exact Hcommand|].
  rewrite (compile_single_pragma_dispatch "f.md" 2 PragmaExamples.rules
             PragmaExamples.tab_store PragmaExamples.tab_line eq_refl).
  rewrite (dispatch_disable_next_line "f.md" 2 PragmaExamples.rules
             PragmaExamples.tab_store PragmaExamples.tab_line Hcommand).
  assert (Directive.resolved_ids PragmaExamples.rules
            (Directive.ids_to_disable 2 PragmaExamples.tab_line)
          = {[ "md009"%string ]}) as ->.
  { unfold Directive.resolved_ids.
    replace (omap (Directive.resolve PragmaExamples.rules)
               (Directive.ids_to_disable 2 PragmaExamples.tab_line))
      with ["md009"%string] by (vm_compute; reflexivity).
    simpl. by rewrite (right_id_L ∅ (∪)). }
  rewrite decide_False by (apply non_empty_singleton_L).
  f_equal.
Qed.

End CompilationRuns.

(** * Properties of the scan loop *)

Section ScanFacts.
Import PyMarkdownLint.
Context `{C : Collaborators} `{T : Tracebacks}.

Implicit Types (σ : Run) (context : Context_).

Lemma hook_calls {A} (c : Call) (h : PM → py_result A * PM) σ r σ' :
  hook c h σ = (r, σ') →
  calls σ' = calls σ ++ [c] ∧ stderr σ' = stderr σ.
Proof.
  unfold hook. simpl. destruct (h (plugins σ)) as [r' pm].
  by intros [= <- <-].
Qed.

(** The raw-line loop numbers the lines from [line_number] upwards, one
    by one, and returns the number after the last one. *)
Lemma raw_line_loop_calls context (lines : list string) :
  ∀ (line_number : Z) σ (last : Z) σ',
    raw_line_loop context line_number lines σ = (inr last, σ') →
    last = line_number + Z.of_nat (List.length lines)
    ∧ calls σ'
      = calls σ
        ++ imap (λ i line, Call_next_line (line_number + Z.of_nat i) line) lines.
Proof.
  induction lines as [|line lines IH]; intros line_number σ last σ'; simpl.
  - unfold mret. intros [= <- <-]. rewrite app_nil_r. split; [lia | done].
  - unfold mbind at 1.
    destruct (hook _ _ σ) as [[e|[]] σ1] eqn:Hhook; [done|].
    apply hook_calls in Hhook as [Hcalls _].
    intros Hrest. apply IH in Hrest as [-> ->]. split; [lia|].
    rewrite Hcalls, <- (assoc_L (++)). simpl. do 2 f_equal.
    + f_equal. lia.
    + apply imap_ext. intros i x _. simpl. f_equal. lia.
Qed.

Lemma token_loop_calls context (tokens : list Token) :
  ∀ σ σ',
    token_loop context tokens σ = (inr (), σ') →
    calls σ' = calls σ ++ map Call_next_token tokens.
Proof.
  induction tokens as [|token tokens IH]; intros σ σ'; simpl.
  - unfold mret. intros [= <-]. by rewrite app_nil_r.
  - unfold mbind at 1.
    destruct (hook _ _ σ) as [[e|[]] σ1] eqn:Hhook; [done|].
    apply hook_calls in Hhook as [Hcalls _].
    intros Hrest. apply IH in Hrest as ->.
    by rewrite Hcalls, <- (assoc_L (++)).
Qed.

(** C4, as amended.  When the scan of a file of [N] lines completes
    without error, the calls it made are, in this order: the start of
    the file; the line hook for the lines numbered 1, 2, ..., [N]; the
    tokenizer, on a source opened afresh; the token hook for the tokens
    in the order the tokenizer gave them; and the completion of the
    file, which receives [N + 1], the number after the last line. *)
Theorem scan_file_call_order (args : Args) (next_file : string) σ σ' :
  __scan_file args next_file σ = (inr (), σ') →
  let lines := FileSourceProvider next_file in
  let source := if x_test_scan_fault args then None else Some lines in
  ∃ tokens,
    transform_from_provider source = inr tokens
    ∧ calls σ'
      = calls σ
        ++ [Call_starting_new_file next_file]
        ++ imap (λ i line, Call_next_line (1 + Z.of_nat i) line) lines
        ++ [Call_transform_from_provider source]
        ++ map Call_next_token tokens
        ++ [Call_completed_file (Z.of_nat (List.length lines) + 1)].
Proof.
  intros Hrun lines source. unfold __scan_file in Hrun.
  unfold mbind at 1 in Hrun.
  destruct (hook _ _ σ) as [[e|context] σ1] eqn:Hstart; [done|].
  apply hook_calls in Hstart as [Hcalls1 _].
  unfold mbind at 1 in Hrun.
  destruct (raw_line_loop context 1 _ σ1) as [[e|last] σ2] eqn:Hraw; [done|].
  apply raw_line_loop_calls in Hraw as [-> Hcalls2].
  unfold mbind at 1 in Hrun. unfold tokenize at 1 in Hrun.
  fold lines source in Hrun, Hcalls2.
  destruct (transform_from_provider source) as [e|tokens] eqn:Htokens; [done|].
  exists tokens. split; [done|].
  unfold mbind at 1 in Hrun.
  destruct (token_loop context tokens _) as [[e|[]] σ3] eqn:Htok; [done|].
  apply token_loop_calls in Htok. simpl in Htok.
  apply hook_calls in Hrun as [Hcalls4 _].
  rewrite Hcalls4, Htok, Hcalls2, Hcalls1.
  rewrite <- !(assoc_L (++)). simpl.
  by replace (1 + Z.of_nat (List.length lines))
       with (Z.of_nat (List.length lines) + 1) by lia.
Qed.

Lemma scan_loop_app (args : Args) (before rest : list string) σ :
  scan_loop args (before ++ rest) σ
  = mbind (scan_loop args before) (λ _, scan_loop args rest) σ.
Proof.
  revert σ. induction before as [|f before IH]; intros σ; [done|].
  simpl. unfold mbind.
  destruct (scan_one args f σ) as [[e|[]] σ1]; [done|]. apply IH.
Qed.

(** C1, as amended.  When the files before [next_file] are scanned
    without error and the scan of [next_file] raises a tokenization
    failure or a plugin failure, the run ends there: the error text,
    which names the file and the cause, is logged as a warning and
    printed, the stack trace is printed after it when stack traces were
    asked for, and [main] exits with status 1.  The run is otherwise as
    the failed scan left it, so no hook is called for any of the files
    after [next_file] and the plugin manager, with its failure count, is
    not touched again. *)
Theorem scan_failure_ends_run (args : Args)
    (before : list string) (next_file : string) (after : list string)
    σ σ1 σ2 (e : py_exception) :
  scan_loop args before σ = (inr (), σ1) →
  __scan_file args next_file σ1 = (inl e, σ2) →
  (∃ message, e = BadPluginError message)
  ∨ (∃ message, e = BadTokenizationError message) →
  main args (before ++ next_file :: after) σ
  = (inl (SystemExit 1),
     {| plugins := plugins σ2;
        stderr := stderr σ2
                  ++ [type_name e +:+ " encountered while scanning '"
                      +:+ next_file +:+ "':" +:+ newline
                      +:+ str_of_exception e]
                  ++ (if show_stack_trace args
                      then [traceback_print_exc (Handled_exception e)]
                      else []);
        calls := calls σ2
                 ++ [Call_logger_warning
                       (type_name e +:+ " encountered while scanning '"
                        +:+ next_file +:+ "':" +:+ newline
                        +:+ str_of_exception e)
                       (Handled_exception e)] |}).
Proof.
  intros Hbefore Hscan Hkind. unfold main. unfold mbind at 1.
  rewrite scan_loop_app. unfold mbind at 1. rewrite Hbefore.
  simpl. unfold mbind at 1. unfold scan_one. rewrite Hscan.
  destruct Hkind as [[message ->] | [message ->]];
    unfold __handle_scan_error, __handle_error, mbind, print_stderr, mraise,
      record_call, scan_error_text; simpl;
    destruct (show_stack_trace args); simpl;
    by rewrite <- ?(assoc_L (++)), ?app_nil_r.
Qed.

End ScanFacts.

Section ScanRuns.
Import PyMarkdownLint ScanExamples.

Lemma scan_file_call_order_witness :
  __scan_file args0 "b.md" run0
  = (inr (), {| plugins := 0; stderr := [];
                calls := [Call_starting_new_file "b.md";
                          Call_next_line 1 "one";
                          Call_next_line 2 "two";
                          Call_transform_from_provider (Some ["one"; "two"]%string);
                          Call_next_token "one"%string;
                          Call_next_token "two"%string;
                          Call_completed_file 3] |})
  ∧ ∃ tokens,
      transform_from_provider (Some (FileSourceProvider "b.md")) = inr tokens
      ∧ calls (__scan_file args0 "b.md" run0).2
        = [Call_starting_new_file "b.md"]
          ++ imap (λ i line, Call_next_line (1 + Z.of_nat i) line)
                  (FileSourceProvider "b.md")
          ++ [Call_transform_from_provider (Some (FileSourceProvider "b.md"))]
          ++ map Call_next_token tokens
          ++ [Call_completed_file (Z.of_nat (List.length (FileSourceProvider "b.md")) + 1)].
Proof.
  split; [reflexivity|].
  exact (scan_file_call_order args0 "b.md" run0 _ eq_refl).
Defined.

(** C4, as stated, fails: for the file ["b.md"], of two lines, the scan
    completes without error and the completion of the file receives 3,
    not 2. *)
Lemma completed_file_receives_next_line_number :
  (__scan_file args0 "b.md" run0).1 = inr ()
  ∧ List.length (FileSourceProvider "b.md") = 2%nat
  ∧ Call_completed_file 3 ∈ calls (__scan_file args0 "b.md" run0).2
  ∧ Call_completed_file 2 ∉ calls (__scan_file args0 "b.md" run0).2.
Proof.
  split; [reflexivity|]. split; [reflexivity|]. split.
  - set (made := calls _). vm_compute in made. subst made.
    rewrite !elem_of_cons. tauto.
  - set (made := calls _). vm_compute in made. subst made.
    rewrite !elem_of_cons, elem_of_nil.
    intros H. repeat (destruct H as [H|H]; [discriminate H|]). done.
Qed.

Lemma scan_failure_ends_run_witness :
  scan_loop args_with_stack_trace ["b.md"%string] run0
  = (inr (), (__scan_file args_with_stack_trace "b.md" run0).2)
  ∧ (__scan_file args_with_stack_trace "a.md"
       (__scan_file args_with_stack_trace "b.md" run0).2).1
    = inl (BadTokenizationError "bad line")
  ∧ (main args_with_stack_trace ["b.md"; "a.md"; "b.md"; "c.md"]%string run0).1
    = inl (SystemExit 1)
  ∧ stderr (main args_with_stack_trace
              ["b.md"; "a.md"; "b.md"; "c.md"]%string run0).2
    = [("BadTokenizationError encountered while scanning 'a.md':"
        +:+ newline +:+ "bad line")%string;
       traceback_print_exc
         (Handled_exception (BadTokenizationError "bad line"))].
Proof.
  split; [reflexivity|]. split; [reflexivity|].
  pose proof (scan_failure_ends_run args_with_stack_trace
             ["b.md"%string] "a.md"
             ["b.md"; "c.md"]%string run0
             (__scan_file args_with_stack_trace "b.md" run0).2
             (__scan_file args_with_stack_trace "a.md"
                (__scan_file args_with_stack_trace "b.md" run0).2).2
             (BadTokenizationError "bad line") eq_refl eq_refl
             (or_intror (ex_intro _ "bad line"%string eq_refl))) as Hmain.
  change (["b.md"%string] ++ "a.md"%string :: ["b.md"; "c.md"]%string)
    with ["b.md"; "a.md"; "b.md"; "c.md"]%string in Hmain.
  rewrite Hmain. split; reflexivity.
Defined.

(** C1, as stated, fails: the tokenizer fails on ["a.md"], the run ends
    with exit status 1, the file ["b.md"] that follows is never
    scanned, and the failure count is still 0. *)
Lemma failed_file_stops_the_run :
  (__scan_file args0 "a.md" run0).1 = inl (BadTokenizationError "bad line")
  ∧ (main args0 ["a.md"; "b.md"]%string run0).1 = inl (SystemExit 1)
  ∧ (Call_starting_new_file "b.md"
     ∉ calls (main args0 ["a.md"; "b.md"]%string run0).2)
  ∧ number_of_scan_failures
      (plugins (main args0 ["a.md"; "b.md"]%string run0).2) = 0.
Proof.
  split; [reflexivity|]. split; [reflexivity|]. split; [|reflexivity].
  set (made := calls _). vm_compute in made. subst made.
  rewrite !elem_of_cons, elem_of_nil.
  intros H. repeat (destruct H as [H|H]; [discriminate H|]). done.
Qed.

End ScanRuns.

(** * Further properties of the pragma extension *)

Section RecognitionAndCompilation.
Import PragmaExtension.
Context `{SP : ParserHelper.Spaces}.

Implicit Types (all_ids : gmap string FoundPlugin) (σ : Store).

(** What a successful recognition has checked and done. *)
Lemma look_for_pragmas_true
    (position_marker : PositionMarker) (line_to_parse : string)
    (container_depth : Z) (extracted_whitespace : option string)
    (parser_properties parser_properties' : ParseBlockPassProperties) :
  look_for_pragmas position_marker line_to_parse container_depth
    extracted_whitespace parser_properties
  = (true, parser_properties') →
  container_depth = 0
  ∧ PyStr.startswith line_to_parse PragmaToken.pragma_prefix = true
  ∧ pragma_lines parser_properties'
    = PyDict.set (stored_key position_marker line_to_parse) line_to_parse
        (pragma_lines parser_properties).
Proof.
  unfold look_for_pragmas, stored_key.
  destruct (Z.eqb container_depth 0) eqn:Hdepth; [|done].
  apply Z.eqb_eq in Hdepth. simpl.
  destruct (match extracted_whitespace with
            | Some ws => PyStr.is_empty ws
            | None => true
            end); [|done].
  simpl.
  destruct (PyStr.startswith line_to_parse PragmaToken.pragma_prefix
            || PyStr.startswith line_to_parse
                 PragmaToken.pragma_alternate_prefix) eqn:Hprefix; [|done].
  match goal with
  | |- context [if ?b then (true, _) else _] => destruct b; [|done]
  end.
  intros [= <-]. simpl. split_and!; [done| |done].
  apply orb_prop in Hprefix as [?|?];
    [done | by apply startswith_alternate_standard].
Qed.

(** A line that is not recognised leaves the parser properties alone. *)
Lemma look_for_pragmas_false
    (position_marker : PositionMarker) (line_to_parse : string)
    (container_depth : Z) (extracted_whitespace : option string)
    (parser_properties parser_properties' : ParseBlockPassProperties) :
  look_for_pragmas position_marker line_to_parse container_depth
    extracted_whitespace parser_properties
  = (false, parser_properties') →
  parser_properties' = parser_properties.
Proof.
  unfold look_for_pragmas.
  repeat match goal with
  | |- context [if ?b then _ else _] => destruct b
  end; by intros [= <-].
Qed.

Lemma dispatch_pragma_lines scan_file key all_ids σ raw_line :
  st_pragma_lines (dispatch scan_file key all_ids σ raw_line)
  = st_pragma_lines σ.
Proof.
  unfold dispatch.
  destruct (PyStr.is_empty _); [done|].
  destruct (String.eqb _ _); [|done].
  by rewrite handle_disable_next_line_result.
Qed.

(** X1. Recognition and compilation fit together: when
    [look_for_pragmas] recognises a line, compiling the key it stored,
    against the map it produced, returns normally, whatever the suppression
    table and the plugins are, and leaves that map as it is. *)
Theorem recognised_line_compiles
    (position_marker : PositionMarker) (line_to_parse : string)
    (container_depth : Z) (extracted_whitespace : option string)
    (parser_properties parser_properties' : ParseBlockPassProperties)
    scan_file all_ids (document_pragmas : gmap Z (gset string))
    (failures : list (string * Z * string)) :
  look_for_pragmas position_marker line_to_parse container_depth
    extracted_whitespace parser_properties
  = (true, parser_properties') →
  ∃ σ',
    compile_single_pragma scan_file
      (stored_key position_marker line_to_parse) all_ids
      {| st_pragma_lines := pragma_lines parser_properties';
         st_document_pragmas := document_pragmas;
         st_failures := failures |}
    = inr σ'
    ∧ st_pragma_lines σ' = pragma_lines parser_properties'.
Proof.
  intros Hrun. apply look_for_pragmas_true in Hrun as (_ & _ & Hlines).
  eexists. split.
  - apply compile_single_pragma_dispatch with (raw_line := line_to_parse).
    simpl. rewrite Hlines. apply get_set_eq.
  - apply dispatch_pragma_lines.
Qed.

(** X2. [compile_single_pragma] returns normally exactly when the signed
    key is in the pragma map; for a key that is not, it raises [KeyError]
    with that key, and no assertion of the function ever fails. *)
Theorem compile_single_pragma_raises_iff_key_missing
    scan_file (key : Z) all_ids σ :
  ((∃ σ', compile_single_pragma scan_file key all_ids σ = inr σ')
   ↔ is_Some (PyDict.get key (st_pragma_lines σ)))
  ∧ (PyDict.get key (st_pragma_lines σ) = None →
     compile_single_pragma scan_file key all_ids σ = inl (KeyError key))
  ∧ compile_single_pragma scan_file key all_ids σ ≠ inl AssertionError.
Proof.
  destruct (PyDict.get key (st_pragma_lines σ)) as [raw_line|] eqn:Hget.
  - rewrite (compile_single_pragma_dispatch _ _ _ _ _ Hget).
    split_and!; [|done|done]. split; [by eexists | by eexists].
  - assert (compile_single_pragma scan_file key all_ids σ = inl (KeyError key))
      as ->.
    { unfold compile_single_pragma. by destruct (0 <? key); rewrite Hget. }
    split_and!; [|done|done].
    split; [by intros [? ?] | by intros [? ?]].
Qed.

(** X3. The later of two compilations for the same line wins.
    [compile_single_pragma] takes any pragma map; a map that
    [look_for_pragmas] fills for one document holds one key per line, so
    two keys of one magnitude meet only when the same key is compiled
    twice or the map comes from elsewhere.  When two keys of the same
    magnitude [N] are compiled one after the other and the second is a
    [disable-next-line] that resolves to at least one plugin, the entry
    for line [N + 1] is the set of the second directive alone, not a
    union with what the first one stored there, and the reports of both
    are kept, in order: those of the second are, token by token, the
    "unable to find a plugin" and "blank id" texts. *)
Theorem later_directive_replaces_earlier
    scan_file (key1 key2 : Z) all_ids σ (raw1 raw2 : string) :
  PyDict.get key1 (st_pragma_lines σ) = Some raw1 →
  PyDict.get key2 (st_pragma_lines σ) = Some raw2 →
  Z.abs key1 = Z.abs key2 →
  Directive.command key2 raw2 = "disable-next-line"%string →
  Directive.resolved_ids all_ids (Directive.ids_to_disable key2 raw2) ≠ ∅ →
  ∃ σ1 σ2 reports1,
    compile_single_pragma scan_file key1 all_ids σ = inr σ1
    ∧ compile_single_pragma scan_file key2 all_ids σ1 = inr σ2
    ∧ st_document_pragmas σ2
      = <[Z.abs key1 + 1 :=
            Directive.resolved_ids all_ids (Directive.ids_to_disable key2 raw2)]>
          (st_document_pragmas σ)
    ∧ st_failures σ1 = st_failures σ ++ reports1
    ∧ st_failures σ2
      = st_failures σ ++ reports1
        ++ flat_map
             (λ next_id,
                if PyStr.is_empty (PyStr.lower (PyStr.strip next_id)) then
                  [(scan_file, Z.abs key2,
                    "Inline configuration command 'disable-next-line' specified a plugin with a blank id."%string)]
                else
                  match all_ids !! PyStr.lower (PyStr.strip next_id) with
                  | Some _ => []
                  | None =>
                      [(scan_file, Z.abs key2,
                        ("Inline configuration command 'disable-next-line' unable to find a plugin with the id '"
                         +:+ PyStr.lower (PyStr.strip next_id) +:+ "'.")%string)]
                  end)
             (Directive.ids_to_disable key2 raw2).
Proof.
  intros Hget1 Hget2 Habs Hcommand Hresolved.
  rewrite (compile_single_pragma_dispatch _ _ _ _ _ Hget1).
  assert (∃ reports1,
            st_failures (dispatch scan_file key1 all_ids σ raw1)
            = st_failures σ ++ reports1
            ∧ (st_document_pragmas (dispatch scan_file key1 all_ids σ raw1)
               = st_document_pragmas σ
               ∨ ∃ ids, st_document_pragmas
                          (dispatch scan_file key1 all_ids σ raw1)
                        = <[Z.abs key1 + 1 := ids]> (st_document_pragmas σ)))
    as (reports1 & Hfailures1 & Hdocs1).
  { unfold dispatch. rewrite actual_line_number_abs.
    destruct (PyStr.is_empty _); [eexists; split; [done | by left]|].
    destruct (String.eqb _ _); [|eexists; split; [done | by left]].
    rewrite handle_disable_next_line_result. simpl.
    eexists. split; [done|]. case_decide; [by left | right; by eexists]. }
  eexists _, _, reports1. split; [done|].
  rewrite (compile_single_pragma_dispatch _ key2 _ _ raw2)
    by (by rewrite dispatch_pragma_lines).
  rewrite (dispatch_disable_next_line _ _ _ _ _ Hcommand).
  split; [done|]. simpl. rewrite decide_False by done.
  rewrite Hfailures1, <- (assoc_L (++)), <- Habs. split_and!; [|done|done].
  destruct Hdocs1 as [-> | [ids ->]]; [done|].
  apply insert_insert_eq.
Qed.

End RecognitionAndCompilation.

Section RecognitionAndCompilationRuns.
Import PragmaExtension.

Lemma recognised_line_compiles_witness :
  look_for_pragmas PragmaExamples.marker4 PragmaExamples.alternate_line
    0 None PragmaExamples.before4
  = (true, PragmaExamples.after4)
  ∧ ∃ σ',
      compile_single_pragma "f.md" (-4) PragmaExamples.rules
        {| st_pragma_lines := pragma_lines PragmaExamples.after4;
           st_document_pragmas := ∅;
           st_failures := [] |}
      = inr σ'
      ∧ st_pragma_lines σ' = pragma_lines PragmaExamples.after4.
Proof.
  split; [reflexivity|].
  exact (recognised_line_compiles (SP := ParserHelper.ascii_whitespace) PragmaExamples.marker4
           PragmaExamples.alternate_line 0 None PragmaExamples.before4
           PragmaExamples.after4 "f.md" PragmaExamples.rules ∅ [] eq_refl).
Defined.

End RecognitionAndCompilationRuns.

(** * Facts about the string operations *)

Section PyStrFacts.

Implicit Types (s p r : string) (c : ascii) (n : nat).

Lemma app_nil_l s : EmptyString +:+ s = s.
Proof. reflexivity. Qed.

Lemma app_cons c s r : String c s +:+ r = String c (s +:+ r).
Proof. reflexivity. Qed.

Lemma startswith_app s p :
  PyStr.startswith s p = true ↔ ∃ r, s = p +:+ r.
Proof.
  revert s. induction p as [|a p IH]; intros s.
  - split; [intros _; by exists s | intros _; by destruct s].
  - destruct s as [|c s]; simpl.
    + split; [done | intros [r Hr]; by rewrite app_cons in Hr].
    + rewrite andb_true_iff, IH, Ascii.eqb_eq. split.
      * intros [-> [r ->]]. by exists r.
      * intros [r Hr]. rewrite app_cons in Hr. injection Hr as -> ->.
        split; [done | by exists r].
Qed.

Lemma from_app_length p r : PyStr.from (String.length p) (p +:+ r) = r.
Proof.
  induction p as [|a p IH]; [by destruct r|].
  by rewrite app_cons.
Qed.

Lemma from_0 s : PyStr.from 0 s = s.
Proof. by destruct s. Qed.

Lemma from_from n m s : PyStr.from n (PyStr.from m s) = PyStr.from (m + n) s.
Proof.
  revert s. induction m as [|m IH]; intros s; simpl; [done|].
  destruct s as [|c s]; [by destruct n | apply IH].
Qed.

Lemma length_from n s :
  String.length (PyStr.from n s) = (String.length s - n)%nat.
Proof.
  revert s. induction n as [|n IH]; intros [|c s]; simpl; done.
Qed.

Lemma length_app s r :
  String.length (s +:+ r) = (String.length s + String.length r)%nat.
Proof.
  induction s as [|c s IH]; [done|]. rewrite app_cons. simpl. by rewrite IH.
Qed.

Lemma app_assoc s p r : (s +:+ p) +:+ r = s +:+ (p +:+ r).
Proof.
  induction s as [|c s IH]; [done|]. rewrite !app_cons. by rewrite IH.
Qed.

Lemma upto_from n s : PyStr.upto n s +:+ PyStr.from n s = s.
Proof.
  revert s. induction n as [|n IH]; intros [|c s]; simpl; try done.
  by rewrite app_cons, IH.
Qed.

Lemma length_upto n s :
  (n ≤ String.length s)%nat → String.length (PyStr.upto n s) = n.
Proof.
  revert s. induction n as [|n IH]; intros [|c s]; simpl; try done; [lia|].
  intros ?. rewrite IH; [done | lia].
Qed.

(** A slice cuts the string in three. *)
Lemma slice_split (a b : nat) s :
  (a ≤ b)%nat →
  s = PyStr.upto a s +:+ PyStr.slice a b s +:+ PyStr.from b s.
Proof.
  intros Hab. unfold PyStr.slice.
  rewrite <- (upto_from a s) at 1. f_equal.
  rewrite <- (upto_from (b - a) (PyStr.from a s)) at 1. f_equal.
  rewrite from_from. f_equal. lia.
Qed.

Lemma endswith_app s p :
  PyStr.endswith s p = true ↔ ∃ r, s = r +:+ p.
Proof.
  unfold PyStr.endswith. rewrite andb_true_iff, Nat.leb_le, String.eqb_eq. split.
  - intros [Hlen Hfrom].
    exists (PyStr.upto (String.length s - String.length p) s).
    rewrite <- (upto_from (String.length s - String.length p) s) at 1.
    by rewrite Hfrom.
  - intros [r ->]. rewrite length_app. split; [lia|].
    replace (String.length r + String.length p - String.length p)%nat
      with (String.length r) by lia.
    apply from_app_length.
Qed.

Lemma length_lower s : String.length (PyStr.lower s) = String.length s.
Proof. induction s as [|c s IH]; simpl; [done | by rewrite IH]. Qed.

Lemma lower_app s r : PyStr.lower (s +:+ r) = PyStr.lower s +:+ PyStr.lower r.
Proof.
  induction s as [|c s IH]; [done|]. rewrite app_cons. simpl.
  by rewrite app_cons, IH.
Qed.

Lemma lower_from n s : PyStr.lower (PyStr.from n s) = PyStr.from n (PyStr.lower s).
Proof. revert s. induction n as [|n IH]; intros [|c s]; simpl; try done. Qed.

Lemma lower_upto n s : PyStr.lower (PyStr.upto n s) = PyStr.upto n (PyStr.lower s).
Proof.
  revert s. induction n as [|n IH]; intros [|c s]; simpl; try done.
  by rewrite IH.
Qed.

Lemma isspace_lower_char c : PyStr.isspace (PyStr.lower_char c) = PyStr.isspace c.
Proof. by destruct c as [[] [] [] [] [] [] [] []]. Qed.

Lemma lower_char_idemp c :
  PyStr.lower_char (PyStr.lower_char c) = PyStr.lower_char c.
Proof. by destruct c as [[] [] [] [] [] [] [] []]. Qed.

Lemma is_empty_lower s : PyStr.is_empty (PyStr.lower s) = PyStr.is_empty s.
Proof. by destruct s. Qed.

Lemma lower_idemp s : PyStr.lower (PyStr.lower s) = PyStr.lower s.
Proof.
  induction s as [|c s IH]; simpl; [done|]. by rewrite lower_char_idemp, IH.
Qed.

Lemma lstrip_lower s : PyStr.lstrip (PyStr.lower s) = PyStr.lower (PyStr.lstrip s).
Proof.
  induction s as [|c s IH]; simpl; [done|].
  rewrite isspace_lower_char. by destruct (PyStr.isspace c).
Qed.

Lemma rstrip_lower s : PyStr.rstrip (PyStr.lower s) = PyStr.lower (PyStr.rstrip s).
Proof.
  induction s as [|c s IH]; simpl; [done|].
  rewrite IH, is_empty_lower, isspace_lower_char.
  by destruct (PyStr.is_empty (PyStr.rstrip s) && PyStr.isspace c).
Qed.

Lemma rstrip_idemp s : PyStr.rstrip (PyStr.rstrip s) = PyStr.rstrip s.
Proof.
  induction s as [|c s IH]; simpl; [done|].
  destruct (PyStr.is_empty (PyStr.rstrip s) && PyStr.isspace c) eqn:E; [done|].
  simpl. by rewrite IH, E.
Qed.

Lemma lstrip_head s :
  PyStr.lstrip s = EmptyString
  ∨ ∃ c r, PyStr.lstrip s = String c r ∧ PyStr.isspace c = false.
Proof.
  induction s as [|c s IH]; simpl; [by left|].
  destruct (PyStr.isspace c) eqn:E; [done|]. right. by exists c, s.
Qed.

Lemma strip_idemp s : PyStr.strip (PyStr.strip s) = PyStr.strip s.
Proof.
  unfold PyStr.strip.
  destruct (lstrip_head s) as [-> | (c & r & -> & Hc)]; [done|].
  assert (PyStr.rstrip (String c r) = String c (PyStr.rstrip r)) as ->
    by (simpl; by rewrite Hc, andb_false_r).
  assert (PyStr.lstrip (String c (PyStr.rstrip r)) = String c (PyStr.rstrip r))
    as -> by (simpl; by rewrite Hc).
  simpl. by rewrite rstrip_idemp, Hc, andb_false_r.
Qed.

(** Stripping on the right leaves what comes before the last character
    that is kept. *)
Lemma rstrip_app s r :
  PyStr.rstrip r ≠ EmptyString → PyStr.rstrip (s +:+ r) = s +:+ PyStr.rstrip r.
Proof.
  intros Hr. induction s as [|c s IH]; [done|].
  rewrite !app_cons. simpl. rewrite IH.
  destruct (s +:+ PyStr.rstrip r) eqn:E; [|done].
  destruct s; [by rewrite app_nil_l in E | by rewrite app_cons in E].
Qed.

Lemma count_while_app_stop (f : ascii → bool) s r :
  ParserHelper.count_while f s = String.length s →
  (match r with EmptyString => True | String c _ => f c = false end) →
  ParserHelper.count_while f (s +:+ r) = String.length s.
Proof.
  intros Hs Hr. induction s as [|c s IH].
  - rewrite app_nil_l. destruct r as [|c r]; simpl; [done | by rewrite Hr].
  - rewrite app_cons. simpl in *. destruct (f c); [|done]. f_equal. apply IH. lia.
Qed.

Lemma count_while_le (f : ascii → bool) s :
  (ParserHelper.count_while f s ≤ String.length s)%nat.
Proof. induction s as [|c s IH]; simpl; [done|]. destruct (f c); lia. Qed.

Lemma count_while_upto (f : ascii → bool) s :
  ParserHelper.count_while f (PyStr.upto (ParserHelper.count_while f s) s)
  = String.length (PyStr.upto (ParserHelper.count_while f s) s).
Proof.
  induction s as [|c s IH]; simpl; [done|].
  destruct (f c) eqn:E; simpl; [|done]. by rewrite E, IH.
Qed.

Lemma count_while_from (f : ascii → bool) s :
  match PyStr.from (ParserHelper.count_while f s) s with
  | EmptyString => True
  | String c _ => f c = false
  end.
Proof.
  induction s as [|c s IH]; simpl; [done|].
  destruct (f c) eqn:E; simpl; [done | by rewrite E].
Qed.

End PyStrFacts.

(** * Properties of the file discovery *)

#[local] Set Warnings "-clear-no-such-hyp".

Section DiscoveryFacts.
Import FileDiscovery.
Context `{FS : FileSystem}.

(** X9. A path is eligible exactly when it is some text followed by
    [.md], in lower case: neither [.MD] nor [.markdown] will do. *)
Theorem eligible_iff_md_suffix (path_to_test : string) :
  is_file_eligible_to_scan path_to_test = true
  ↔ ∃ stem, path_to_test = stem +:+ ".md".
Proof. apply endswith_app. Qed.

Lemma walked_files root (files : list string) (found : gset string) file :
  file ∈ foldl (add_walked_file root) found files
  ↔ file ∈ found
    ∨ ∃ name, name ∈ files ∧ file = root +:+ "/" +:+ name
              ∧ is_file_eligible_to_scan file = true.
Proof.
  revert found. induction files as [|name files IH]; intros found; simpl.
  - split; [by left | intros [?|(? & []%elem_of_nil & _)]; done].
  - rewrite IH. unfold add_walked_file.
    destruct (is_file_eligible_to_scan (root +:+ "/" +:+ name)) eqn:E.
    + rewrite elem_of_union, elem_of_singleton. split.
      * intros [[->|?]|(name' & ? & ? & ?)].
        -- right. exists name. rewrite elem_of_cons. auto.
        -- by left.
        -- right. exists name'. rewrite elem_of_cons. auto.
      * intros [?|(name' & [->|?]%elem_of_cons & -> & ?)];
          [by left; right | by left; left | right; by exists name'].
    + split.
      * intros [?|(name' & ? & ? & ?)]; [by left|].
        right. exists name'. rewrite elem_of_cons. auto.
      * intros [?|(name' & [->|?]%elem_of_cons & -> & He)];
          [by left | congruence | right; by exists name'].
Qed.

Lemma walked_directories (entries : list (string * list string * list string))
    (found : gset string) file :
  file ∈ foldl add_walked_directory found entries
  ↔ file ∈ found
    ∨ ∃ root dirs files name,
        (root, dirs, files) ∈ entries ∧ name ∈ files
        ∧ file = root +:+ "/" +:+ name
        ∧ is_file_eligible_to_scan file = true.
Proof.
  revert found.
  induction entries as [|[[root dirs] files] entries IH]; intros found; simpl.
  - split; [by left | intros [?|(? & ? & ? & ? & []%elem_of_nil & _)]; done].
  - rewrite IH, walked_files. split.
    + intros [[?|(name & ? & ? & ?)]|(root' & dirs' & files' & name & ? & ?)].
      * by left.
      * right. exists root, dirs, files, name. rewrite elem_of_cons. auto.
      * right. exists root', dirs', files', name. rewrite elem_of_cons. tauto.
    + intros [?|(root' & dirs' & files' & name & [[= -> -> ->]|?]%elem_of_cons
                 & ? & ? & ?)].
      * by left; left.
      * left; right. by exists name.
      * right. by exists root', dirs', files', name.
Qed.

Lemma add_path_files (acc : gset string * list string) next_path file :
  file ∈ (add_path acc next_path).1
  ↔ file ∈ acc.1 ∨ found_under next_path file.
Proof.
  destruct acc as [found printed]. unfold add_path, found_under. simpl.
  destruct (os_path_exists next_path); simpl; [|naive_solver].
  destruct (os_path_isdir next_path); simpl.
  - rewrite walked_directories. naive_solver.
  - destruct (is_file_eligible_to_scan next_path); simpl.
    + rewrite elem_of_union, elem_of_singleton. naive_solver.
    + naive_solver.
Qed.

Lemma add_path_printed (acc : gset string * list string) next_path :
  (add_path acc next_path).2 = acc.2 ++ path_messages next_path.
Proof.
  destruct acc as [found printed]. unfold add_path, path_messages. simpl.
  destruct (os_path_exists next_path); simpl; [|done].
  destruct (os_path_isdir next_path); simpl; [by rewrite app_nil_r|].
  destruct (is_file_eligible_to_scan next_path); simpl; [|done].
  by rewrite app_nil_r.
Qed.

Lemma add_paths (eligible_paths : list string)
    (acc : gset string * list string) :
  (∀ file,
     file ∈ (foldl add_path acc eligible_paths).1
     ↔ file ∈ acc.1
       ∨ ∃ next_path, next_path ∈ eligible_paths ∧ found_under next_path file)
  ∧ (foldl add_path acc eligible_paths).2
    = acc.2 ++ flat_map path_messages eligible_paths.
Proof.
  revert acc. induction eligible_paths as [|next_path paths IH]; intros acc.
  - simpl. rewrite app_nil_r. split; [|done].
    intros file. split; [by left | intros [?|(? & []%elem_of_nil & _)]; done].
  - simpl. destruct (IH (add_path acc next_path)) as [IHfiles IHprinted].
    split.
    + intros file. rewrite IHfiles, add_path_files. split.
      * intros [[?|?]|(path & ? & ?)]; [by left | |].
        -- right. exists next_path. rewrite elem_of_cons. auto.
        -- right. exists path. rewrite elem_of_cons. auto.
      * intros [?|(path & [->|?]%elem_of_cons & ?)];
          [by left; left | by left; right | right; by exists path].
    + by rewrite IHprinted, add_path_printed, <- (assoc_L (++)).
Qed.

Lemma found_under_eligible next_path file :
  found_under next_path file → is_file_eligible_to_scan file = true.
Proof.
  unfold found_under. intros [_ H].
  destruct (os_path_isdir next_path); [naive_solver|].
  by destruct H as [-> ?].
Qed.

(** X10. The list that [__determine_files_to_scan] returns is in
    ascending order, names no file twice, and holds eligible files only. *)
Theorem determined_files_sorted_and_eligible (eligible_paths : list string) :
  Sorted String.le (__determine_files_to_scan eligible_paths).1
  ∧ NoDup (__determine_files_to_scan eligible_paths).1
  ∧ ∀ file, file ∈ (__determine_files_to_scan eligible_paths).1 →
            is_file_eligible_to_scan file = true.
Proof.
  unfold __determine_files_to_scan.
  destruct (foldl add_path (∅, []) eligible_paths) as [found printed] eqn:E.
  simpl. split_and!.
  - apply Sorted_merge_sort. apply _.
  - rewrite merge_sort_Permutation. apply NoDup_elements.
  - intros file. rewrite merge_sort_Permutation, elem_of_elements.
    intros Hin.
    destruct (add_paths eligible_paths (∅, [])) as [Hfiles _].
    rewrite E in Hfiles. simpl in Hfiles.
    apply Hfiles in Hin as [[]%not_elem_of_empty | (path & _ & Hfound)].
    by eapply found_under_eligible.
Qed.

(** X11. A file is in the list exactly when one of the provided paths
    exists and either is that file and is eligible, or is a directory
    under which [os.walk] lists the file, eligible, as [root/name]. *)
Theorem determined_files_membership (eligible_paths : list string) (file : string) :
  file ∈ (__determine_files_to_scan eligible_paths).1
  ↔ ∃ next_path, next_path ∈ eligible_paths ∧ found_under next_path file.
Proof.
  unfold __determine_files_to_scan.
  destruct (foldl add_path (∅, []) eligible_paths) as [found printed] eqn:E.
  simpl. rewrite merge_sort_Permutation, elem_of_elements.
  destruct (add_paths eligible_paths (∅, [])) as [Hfiles _].
  rewrite E in Hfiles. simpl in Hfiles. rewrite Hfiles.
  split; [intros [[]%not_elem_of_empty|?]; done | by right].
Qed.

(** X12. The list of files depends on the provided paths as a set: the
    order of the paths and their repetition make no difference to it. *)
Theorem determined_files_ignore_order (paths1 paths2 : list string) :
  (∀ next_path, next_path ∈ paths1 ↔ next_path ∈ paths2) →
  (__determine_files_to_scan paths1).1 = (__determine_files_to_scan paths2).1.
Proof.
  intros Hsame. unfold __determine_files_to_scan.
  destruct (foldl add_path (∅, []) paths1) as [found1 printed1] eqn:E1.
  destruct (foldl add_path (∅, []) paths2) as [found2 printed2] eqn:E2.
  simpl. f_equal. f_equal. apply set_eq. intros file.
  destruct (add_paths paths1 (∅, [])) as [H1 _].
  destruct (add_paths paths2 (∅, [])) as [H2 _].
  rewrite E1 in H1. rewrite E2 in H2. simpl in *.
  rewrite H1, H2. naive_solver.
Qed.

(** X13. What is printed is one message for each provided path that does
    not exist and one for each that is a file without the [.md] suffix,
    in the order of the paths; a directory prints nothing, even when no
    eligible file is under it. *)
Theorem determined_files_messages (eligible_paths : list string) :
  (__determine_files_to_scan eligible_paths).2
  = flat_map
      (λ next_path,
         if negb (os_path_exists next_path) then
           ["Provided path '" +:+ next_path +:+ "' does not exist. Skipping."]
         else if os_path_isdir next_path then []
         else if PyStr.endswith next_path ".md" then []
         else ["Provided file path '" +:+ next_path
               +:+ "' is not a valid markdown file. Skipping."])
      eligible_paths.
Proof.
  unfold __determine_files_to_scan.
  destruct (foldl add_path (∅, []) eligible_paths) as [found printed] eqn:E.
  simpl. destruct (add_paths eligible_paths (∅, [])) as [_ Hprinted].
  by rewrite E in Hprinted.
Qed.

End DiscoveryFacts.

(** * Further properties of the scan loop *)

Section ScanOutcomes.
Import PyMarkdownLint.
Context `{C : Collaborators} `{T : Tracebacks}.

Implicit Types (σ : Run) (context : Context_).

Lemma raw_line_loop_prefix context (lines : list string) :
  ∀ (line_number : Z) σ r σ',
    raw_line_loop context line_number lines σ = (r, σ') →
    stderr σ' = stderr σ
    ∧ ∃ made,
        calls σ' = calls σ ++ made
        ∧ made `prefix_of`
            imap (λ i line, Call_next_line (line_number + Z.of_nat i) line) lines.
Proof.
  induction lines as [|line lines IH]; intros line_number σ r σ'; simpl.
  - unfold mret. intros [= <- <-]. split; [done|]. exists [].
    by rewrite app_nil_r.
  - unfold mbind at 1.
    destruct (hook _ _ σ) as [[e|[]] σ1] eqn:Hhook;
      apply hook_calls in Hhook as [Hcalls Hstderr].
    + intros [= <- <-]. split; [done|]. eexists. split; [done|].
      replace (line_number + Z.of_nat 0) with line_number by lia.
      apply prefix_cons, prefix_nil.
    + intros Hrest. apply IH in Hrest as (Hstderr' & made & Hcalls' & Hprefix).
      split; [congruence|]. exists (Call_next_line line_number line :: made).
      split; [by rewrite Hcalls', Hcalls, <- (assoc_L (++))|].
      replace (line_number + Z.of_nat 0) with line_number by lia.
      apply prefix_cons.
      erewrite imap_ext; [exact Hprefix|].
      intros i x _. simpl. f_equal. lia.
Qed.

Lemma token_loop_prefix context (tokens : list Token) :
  ∀ σ r σ',
    token_loop context tokens σ = (r, σ') →
    stderr σ' = stderr σ
    ∧ ∃ made,
        calls σ' = calls σ ++ made
        ∧ made `prefix_of` map Call_next_token tokens.
Proof.
  induction tokens as [|token tokens IH]; intros σ r σ'; simpl.
  - unfold mret. intros [= <- <-]. split; [done|]. exists [].
    by rewrite app_nil_r.
  - unfold mbind at 1.
    destruct (hook _ _ σ) as [[e|[]] σ1] eqn:Hhook;
      apply hook_calls in Hhook as [Hcalls Hstderr].
    + intros [= <- <-]. split; [done|]. eexists. split; [done|].
      apply prefix_cons, prefix_nil.
    + intros Hrest. apply IH in Hrest as (Hstderr' & made & Hcalls' & Hprefix).
      split; [congruence|]. exists (Call_next_token token :: made).
      split; [by rewrite Hcalls', Hcalls, <- (assoc_L (++))|].
      by apply prefix_cons.
Qed.

(** The calls of a scan, whatever its outcome. *)
Lemma scan_file_outcome (args : Args) (next_file : string)
    σ (r : py_result ()) σ' :
  __scan_file args next_file σ = (r, σ') →
  stderr σ' = stderr σ
  ∧ ∃ made,
      calls σ' = calls σ ++ made
      ∧ made `prefix_of` scan_calls args next_file
      ∧ (r = inr () →
         ∃ tokens,
           transform_from_provider
             (if x_test_scan_fault args then None
              else Some (FileSourceProvider next_file)) = inr tokens
           ∧ made = scan_calls args next_file).
Proof.
  unfold __scan_file, scan_calls. intros Hrun.
  set (lines := FileSourceProvider next_file) in *.
  set (source := if x_test_scan_fault args then None else Some lines) in *.
  unfold mbind at 1 in Hrun.
  destruct (hook _ _ σ) as [[e|context] σ1] eqn:Hstart;
    apply hook_calls in Hstart as [Hcalls1 Hstderr1].
  { injection Hrun as <- <-. split; [done|]. eexists. split; [done|].
    split; [|done]. apply prefix_cons, prefix_nil. }
  unfold mbind at 1 in Hrun.
  destruct (raw_line_loop context 1 lines σ1) as [[e|last] σ2] eqn:Hraw.
  { injection Hrun as <- <-.
    apply raw_line_loop_prefix in Hraw as (Hstderr2 & made & Hcalls2 & Hprefix).
    split; [congruence|]. exists (Call_starting_new_file next_file :: made).
    split; [by rewrite Hcalls2, Hcalls1, <- (assoc_L (++))|].
    split; [|done]. simpl. apply prefix_cons. by apply prefix_app_r. }
  pose proof Hraw as Hraw'.
  apply raw_line_loop_prefix in Hraw' as (Hstderr2 & _).
  apply raw_line_loop_calls in Hraw as [-> Hcalls2].
  unfold mbind at 1 in Hrun. unfold tokenize at 1 in Hrun.
  destruct (transform_from_provider source) as [e|tokens] eqn:Htokens.
  { injection Hrun as <- <-. split; [simpl; congruence|]. eexists. split.
    - simpl. rewrite Hcalls2, Hcalls1, <- !(assoc_L (++)). done.
    - split; [|done]. by rewrite app_nil_r. }
  unfold mbind at 1 in Hrun.
  destruct (token_loop context tokens _) as [[e|[]] σ3] eqn:Htok.
  { injection Hrun as <- <-.
    apply token_loop_prefix in Htok as (Hstderr3 & made & Hcalls3 & Hprefix).
    simpl in Hstderr3, Hcalls3. split; [congruence|]. eexists. split.
    - rewrite Hcalls3, Hcalls2, Hcalls1, <- !(assoc_L (++)). done.
    - split; [|done]. simpl. apply prefix_cons, prefix_app, prefix_cons.
      by apply prefix_app_r. }
  pose proof Htok as Htok'.
  apply token_loop_prefix in Htok' as (Hstderr3 & _).
  apply token_loop_calls in Htok. simpl in Htok, Hstderr3.
  apply hook_calls in Hrun as [Hcalls4 Hstderr4].
  split; [congruence|]. eexists. split.
  - rewrite Hcalls4, Htok, Hcalls2, Hcalls1, <- !(assoc_L (++)). done.
  - replace (1 + Z.of_nat (List.length lines))
      with (Z.of_nat (List.length lines) + 1) by lia.
    split; [done|]. intros _. by exists tokens.
Qed.

(** X14. Whatever its outcome, the scan of a file prints nothing, and the
    calls it makes are an initial segment of: the start of the file, the
    line hook for lines 1 to [N], the tokenizer, and, when the tokenizer
    succeeds, the token hook for each token and the completion of the
    file.  So the tokenizer is not called before every line went through
    the line hook, no token is dispatched when the tokenizer fails, and
    the completion is the last call of a scan or is not made.  A scan
    that returns normally had the tokenizer succeed and made all of these
    calls, the completion with [N + 1] being the last. *)
Theorem scan_file_calls_initial_segment (args : Args) (next_file : string)
    σ (r : py_result ()) σ' :
  __scan_file args next_file σ = (r, σ') →
  stderr σ' = stderr σ
  ∧ ∃ made,
      calls σ' = calls σ ++ made
      ∧ made `prefix_of`
          ([Call_starting_new_file next_file]
           ++ imap (λ i line, Call_next_line (1 + Z.of_nat i) line)
                   (FileSourceProvider next_file)
           ++ [Call_transform_from_provider
                 (if x_test_scan_fault args then None
                  else Some (FileSourceProvider next_file))]
           ++ match transform_from_provider
                      (if x_test_scan_fault args then None
                       else Some (FileSourceProvider next_file)) with
              | inr tokens =>
                  map Call_next_token tokens
                  ++ [Call_completed_file
                        (Z.of_nat (List.length (FileSourceProvider next_file)) + 1)]
              | inl _ => []
              end)
      ∧ (r = inr () →
         ∃ tokens,
           transform_from_provider
             (if x_test_scan_fault args then None
              else Some (FileSourceProvider next_file)) = inr tokens
           ∧ made
             = [Call_starting_new_file next_file]
               ++ imap (λ i line, Call_next_line (1 + Z.of_nat i) line)
                       (FileSourceProvider next_file)
               ++ [Call_transform_from_provider
                     (if x_test_scan_fault args then None
                      else Some (FileSourceProvider next_file))]
               ++ map Call_next_token tokens
               ++ [Call_completed_file
                     (Z.of_nat (List.length (FileSourceProvider next_file)) + 1)]).
Proof.
  intros Hrun.
  destruct (scan_file_outcome _ _ _ _ _ Hrun)
    as (Hstderr & made & Hcalls & Hprefix & Hall).
  split; [exact Hstderr|]. exists made. split; [exact Hcalls|].
  split; [exact Hprefix|]. intros Hr.
  destruct (Hall Hr) as (tokens & Htokens & ->). exists tokens.
  split; [exact Htokens|]. unfold scan_calls. by rewrite Htokens.
Qed.

(** The scan of one file within the loop of [main]: its outcome is
    that of [__scan_file], or the two failures are handled. *)
Lemma scan_one_outcome (args : Args) (next_file : string) σ r σ' :
  scan_one args next_file σ = (r, σ') →
  (__scan_file args next_file σ = (r, σ')
   ∧ (∀ message, r ≠ inl (BadPluginError message))
   ∧ (∀ message, r ≠ inl (BadTokenizationError message)))
  ∨ (r = inl (SystemExit 1)
     ∧ ∃ e σ0,
         __scan_file args next_file σ = (inl e, σ0)
         ∧ plugins σ' = plugins σ0
         ∧ stderr σ'
           = stderr σ0 ++ [scan_error_text next_file e]
             ++ (if show_stack_trace args
                 then [traceback_print_exc (Handled_exception e)]
                 else [])
         ∧ calls σ'
           = calls σ0
             ++ [Call_logger_warning (scan_error_text next_file e)
                   (Handled_exception e)]).
Proof.
  unfold scan_one.
  destruct (__scan_file args next_file σ) as [r0 σ0] eqn:Hscan.
  destruct r0 as [[| | message | message |]|[]];
    try (intros [= <- <-]; left; split_and!; done);
    unfold __handle_scan_error, __handle_error, mbind, print_stderr, mraise,
      record_call; simpl;
    destruct (show_stack_trace args); simpl;
    intros [= <- <-]; right; (split; [done|]); eexists _, _;
    (split; [done|]); simpl; by rewrite <- ?(assoc_L (++)).
Qed.

Lemma scan_loop_outcome (args : Args) (files_to_scan : list string) :
  ∀ σ r σ',
    scan_loop args files_to_scan σ = (r, σ') →
    (∀ message, r ≠ inl (BadPluginError message))
    ∧ (∀ message, r ≠ inl (BadTokenizationError message))
    ∧ (r = inr () →
       stderr σ' = stderr σ
       ∧ calls σ' = calls σ ++ flat_map (scan_calls args) files_to_scan
       ∧ ∀ next_file, next_file ∈ files_to_scan →
           ∃ tokens,
             transform_from_provider
               (if x_test_scan_fault args then None
                else Some (FileSourceProvider next_file)) = inr tokens)
    ∧ (stderr σ' = stderr σ
       ∨ r = inl (SystemExit 1)
         ∧ ∃ text handled earlier,
             stderr σ'
             = stderr σ ++ [text]
               ++ (if show_stack_trace args
                   then [traceback_print_exc handled] else [])
             ∧ calls σ' = earlier ++ [Call_logger_warning text handled]).
Proof.
  induction files_to_scan as [|next_file files IH]; intros σ r σ'; simpl.
  - unfold mret. intros [= <- <-]. rewrite app_nil_r.
    split_and!; [done | done | | by left].
    intros _. split_and!; [done | done |]. by intros ? ?%elem_of_nil.
  - unfold mbind at 1.
    destruct (scan_one args next_file σ) as [r1 σ1] eqn:Hone.
    apply scan_one_outcome in Hone
      as [(Hscan & Hplugin & Htoken)
         | (-> & e & σ0 & Hscan & _ & Hstderr & Hcalls)].
    + apply scan_file_outcome in Hscan
        as (Hstderr & made & Hcalls & _ & Hall).
      destruct r1 as [e|[]].
      * intros [= <- <-]. split_and!; [done | done | done | by left].
      * destruct (Hall eq_refl) as (tokens & Htokens & ->).
        intros Hrest.
        apply IH in Hrest as (Hplugin' & Htoken' & Hok & Hstderr').
        split_and!; [done | done | |].
        -- intros ->. destruct (Hok eq_refl) as (-> & -> & Hall').
           split_and!; [done | by rewrite Hcalls, <- (assoc_L (++)) |].
           intros file [->|Hin]%elem_of_cons; [by exists tokens | by apply Hall'].
        -- rewrite <- Hstderr. exact Hstderr'.
    + intros [= <- <-]. split_and!; [done | done | done |].
      right. split; [done|].
      apply scan_file_outcome in Hscan as (Hsame & _).
      eexists _, _, _. rewrite <- Hsame. split; [exact Hstderr | exact Hcalls].
Qed.

(** X15. When [main] returns normally every file was scanned to its end,
    in the order of the list: for every file the tokenizer succeeded, and
    the calls made are, file after file, the start of the file, the line
    hook for each line, the tokenizer, the token hook for each token and
    the completion of the file.  Nothing was printed on [sys.stderr],
    nothing was logged, and the plugin manager counts no scan failure. *)
Theorem main_returns_after_complete_scans (args : Args)
    (files_to_scan : list string) σ σ' :
  main args files_to_scan σ = (inr (), σ') →
  calls σ' = calls σ ++ flat_map (scan_calls args) files_to_scan
  ∧ (∀ next_file, next_file ∈ files_to_scan →
       ∃ tokens,
         transform_from_provider
           (if x_test_scan_fault args then None
            else Some (FileSourceProvider next_file)) = inr tokens
         ∧ scan_calls args next_file
           = [Call_starting_new_file next_file]
             ++ imap (λ i line, Call_next_line (1 + Z.of_nat i) line)
                     (FileSourceProvider next_file)
             ++ [Call_transform_from_provider
                   (if x_test_scan_fault args then None
                    else Some (FileSourceProvider next_file))]
             ++ map Call_next_token tokens
             ++ [Call_completed_file
                   (Z.of_nat (List.length (FileSourceProvider next_file)) + 1)])
  ∧ stderr σ' = stderr σ
  ∧ number_of_scan_failures (plugins σ') = 0.
Proof.
  unfold main. unfold mbind at 1.
  destruct (scan_loop args files_to_scan σ) as [[e|[]] σ1] eqn:Hloop; [done|].
  apply scan_loop_outcome in Hloop as (_ & _ & Hok & _).
  destruct (Hok eq_refl) as (Hstderr & Hcalls & Htokens).
  destruct (Z.eqb (number_of_scan_failures (plugins σ1)) 0) eqn:Hcount;
    [|done].
  unfold mret. intros [= <-]. split_and!; [done | | done | lia].
  intros next_file Hin. destruct (Htokens next_file Hin) as [tokens Htok].
  exists tokens. split; [done|]. unfold scan_calls. by rewrite Htok.
Qed.

(** X16. [main] never ends with a [BadPluginError] or a
    [BadTokenizationError].  Either it prints nothing on [sys.stderr],
    or it ends with exit status 1 after it has logged one error text as
    a warning, as its last call, and printed that text, followed by the
    stack trace exactly when stack traces were asked for. *)
Theorem main_never_leaks_scan_errors (args : Args)
    (files_to_scan : list string) σ (r : py_result ()) σ' :
  main args files_to_scan σ = (r, σ') →
  (∀ message, r ≠ inl (BadPluginError message))
  ∧ (∀ message, r ≠ inl (BadTokenizationError message))
  ∧ (stderr σ' = stderr σ
     ∨ r = inl (SystemExit 1)
       ∧ ∃ text handled earlier,
           stderr σ'
           = stderr σ ++ [text]
             ++ (if show_stack_trace args
                 then [traceback_print_exc handled] else [])
           ∧ calls σ' = earlier ++ [Call_logger_warning text handled]).
Proof.
  unfold main. unfold mbind at 1.
  destruct (scan_loop args files_to_scan σ) as [[e|[]] σ1] eqn:Hloop;
    apply scan_loop_outcome in Hloop as (Hplugin & Htoken & Hok & Hstderr).
  - by intros [= <- <-].
  - destruct (Hok eq_refl) as [Hsame _].
    destruct (Z.eqb (number_of_scan_failures (plugins σ1)) 0).
    + unfold mret. intros [= <- <-]. split_and!; [done | done | by left].
    + unfold mraise. intros [= <- <-]. split_and!; [done | done | by left].
Qed.

End ScanOutcomes.

Section ScanOutcomeRuns.
Import PyMarkdownLint ScanExamples.

Lemma scan_file_calls_initial_segment_witness :
  __scan_file ScanExamples.args0 "c.md" ScanExamples.run0
  = (inl (BadPluginError "plugin failed"),
     {| plugins := 0; stderr := [];
        calls := [Call_starting_new_file "c.md";
                  Call_next_line 1 "boom";
                  Call_transform_from_provider (Some ["boom"%string]);
                  Call_next_token "boom"%string] |})
  ∧ ∃ made,
      [Call_starting_new_file "c.md";
       Call_next_line 1 "boom";
       Call_transform_from_provider (Some ["boom"%string]);
       Call_next_token "boom"%string] = [] ++ made
      ∧ made `prefix_of` scan_calls ScanExamples.args0 "c.md".
Proof.
  split; [reflexivity|].
  destruct (scan_file_calls_initial_segment ScanExamples.args0 "c.md"
              ScanExamples.run0 _ _ eq_refl) as (_ & made & Hcalls & Hprefix & _).
  exists made. split; [exact Hcalls | exact Hprefix].
Defined.

Lemma main_returns_after_complete_scans_witness :
  (main ScanExamples.args0 ["b.md"; "d.md"]%string ScanExamples.run0).1
  = inr ()
  ∧ calls (main ScanExamples.args0 ["b.md"; "d.md"]%string ScanExamples.run0).2
    = [] ++ flat_map (scan_calls ScanExamples.args0) ["b.md"; "d.md"]%string.
Proof.
  split; [reflexivity|].
  exact (proj1 (main_returns_after_complete_scans ScanExamples.args0
                  ["b.md"; "d.md"]%string ScanExamples.run0
                  (main ScanExamples.args0 ["b.md"; "d.md"]%string
                     ScanExamples.run0).2 eq_refl)).
Defined.

Lemma main_never_leaks_scan_errors_witness :
  (main ScanExamples.args_with_stack_trace ["c.md"; "b.md"]%string
     ScanExamples.run0).1
  = inl (SystemExit 1)
  ∧ stderr (main ScanExamples.args_with_stack_trace ["c.md"; "b.md"]%string
              ScanExamples.run0).2
    = [("BadPluginError encountered while scanning 'c.md':"
        +:+ newline +:+ "plugin failed")%string;
       traceback_print_exc (Handled_exception (BadPluginError "plugin failed"))]
  ∧ ∀ message,
      (main ScanExamples.args_with_stack_trace ["c.md"; "b.md"]%string
         ScanExamples.run0).1
      ≠ inl (BadPluginError message).
Proof.
  split; [reflexivity|]. split; [reflexivity|].
  exact (proj1 (main_never_leaks_scan_errors ScanExamples.args_with_stack_trace
                  ["c.md"; "b.md"]%string ScanExamples.run0 _ _ eq_refl)).
Defined.

End ScanOutcomeRuns.

(** * The shape of a recognised line *)

Section DirectiveShape.
Import PragmaExtension.
Context `{SP : ParserHelper.Spaces}.

Implicit Types (all_ids : gmap string FoundPlugin) (σ : Store).

(** The prefix that [look_for_pragmas] matched. *)
Lemma look_for_pragmas_body
    (position_marker : PositionMarker) (line_to_parse : string)
    (container_depth : Z) (extracted_whitespace : option string)
    (parser_properties parser_properties' : ParseBlockPassProperties) :
  look_for_pragmas position_marker line_to_parse container_depth
    extracted_whitespace parser_properties
  = (true, parser_properties') →
  ∃ matched rest,
    matched = (if PyStr.startswith line_to_parse
                    PragmaToken.pragma_alternate_prefix
               then PragmaToken.pragma_alternate_prefix
               else PragmaToken.pragma_prefix)
    ∧ line_to_parse = matched +:+ rest
    ∧ PyStr.startswith
        (PyStr.lower (PyStr.rstrip
           (PyStr.from (ParserHelper.count_while ParserHelper.is_space_char rest)
              rest)))
        PragmaToken.pragma_title = true
    ∧ PyStr.endswith
        (PyStr.lower (PyStr.rstrip
           (PyStr.from (ParserHelper.count_while ParserHelper.is_space_char rest)
              rest)))
        PragmaToken.pragma_suffix = true.
Proof.
  intros Hrun.
  pose proof (look_for_pragmas_true _ _ _ _ _ _ Hrun) as (_ & Hstd & _).
  revert Hrun. unfold look_for_pragmas.
  destruct (Z.eqb container_depth 0 && _ && _); [|done].
  set (matched := if PyStr.startswith line_to_parse
                       PragmaToken.pragma_alternate_prefix
                  then PragmaToken.pragma_alternate_prefix
                  else PragmaToken.pragma_prefix).
  assert (∃ rest, line_to_parse = matched +:+ rest) as [rest Hline].
  { apply startswith_app. unfold matched.
    by destruct (PyStr.startswith line_to_parse
                   PragmaToken.pragma_alternate_prefix) eqn:E. }
  unfold ParserHelper.extract_spaces.
  assert ((String.length matched <=? String.length line_to_parse)%nat = true)
    as ->.
  { apply Nat.leb_le. rewrite Hline, length_app. lia. }
  simpl fmap. cbn [fst].
  rewrite <- from_from. rewrite Hline at 1 2 3 4. rewrite from_app_length.
  destruct (PyStr.startswith _ PragmaToken.pragma_title) eqn:Htitle; [|done].
  destruct (PyStr.endswith _ PragmaToken.pragma_suffix) eqn:Hsuffix; [|done].
  intros _. by exists matched, rest.
Qed.

Lemma all_chars_count (kind : ascii → bool) s :
  ParserHelper.count_while kind s = String.length s →
  all_chars kind s = true.
Proof.
  induction s as [|c s IH]; simpl; [done|].
  destruct (kind c); [|done]. intros [= H]. by apply IH.
Qed.

(** Stripping on the right keeps the first character of what is left. *)
Lemma rstrip_head u :
  match PyStr.rstrip u with
  | EmptyString => True
  | String c _ => ∃ r, u = String c r
  end.
Proof.
  destruct u as [|c u]; simpl; [done|].
  destruct (PyStr.is_empty (PyStr.rstrip u) && PyStr.isspace c); [done|].
  by exists u.
Qed.

Lemma lower_char_dash c : PyStr.lower_char c = "-"%char → c = "-"%char.
Proof. by destruct c as [[] [] [] [] [] [] [] []]. Qed.

Lemma lower_char_greater c : PyStr.lower_char c = ">"%char → c = ">"%char.
Proof. by destruct c as [[] [] [] [] [] [] [] []]. Qed.

Lemma lower_is_suffix s : PyStr.lower s = "-->"%string → s = "-->"%string.
Proof.
  destruct s as [|c1 [|c2 [|c3 [|c4 s]]]]; simpl; try done.
  intros [= H1%lower_char_dash H2%lower_char_dash H3%lower_char_greater].
  by subst.
Qed.

(** A text that begins with the title and ends with the suffix has room
    for both. *)
Lemma title_and_suffix_length s :
  PyStr.startswith s PragmaToken.pragma_title = true →
  PyStr.endswith s PragmaToken.pragma_suffix = true →
  (8 ≤ String.length s)%nat.
Proof.
  intros [x ->]%startswith_app. unfold PyStr.endswith.
  rewrite andb_true_iff, String.eqb_eq. intros [_ Hfrom]. revert Hfrom.
  unfold PragmaToken.pragma_title, PragmaToken.pragma_suffix.
  rewrite !app_cons, app_nil_l.
  destruct x as [|a [|b [|c x]]]; simpl; try done. lia.
Qed.

End DirectiveShape.

Section DirectiveBody.
Import PragmaExtension.
Context `{SP : ParserHelper.Spaces}.

(** The key that [look_for_pragmas] stores for a line of positive number
    makes [compile_single_pragma] strip the prefix that was matched. *)
Lemma prefix_length_stored_key (position_marker : PositionMarker)
    (line_to_parse : string) :
  0 < line_number position_marker →
  Directive.prefix_length (stored_key position_marker line_to_parse)
  = String.length
      (if PyStr.startswith line_to_parse PragmaToken.pragma_alternate_prefix
       then PragmaToken.pragma_alternate_prefix
       else PragmaToken.pragma_prefix).
Proof.
  intros Hline. unfold Directive.prefix_length, stored_key.
  destruct (PyStr.startswith line_to_parse PragmaToken.pragma_alternate_prefix).
  - assert ((0 <? - line_number position_marker) = false) as -> by lia. done.
  - assert ((0 <? line_number position_marker) = true) as -> by lia. done.
Qed.

(** X4. A recognised line on a line of positive number has, before its
    trailing whitespace, the shape: the prefix that was matched, a run of
    characters that [extract_spaces] passes over, the title in any case,
    a body, and the suffix [-->]; and the command data that
    [compile_single_pragma] works on, for the key that was stored, is
    that body, whichever of the two prefixes was used and whatever
    [ParserHelper] takes for spaces. *)
Theorem recognised_line_shape
    (position_marker : PositionMarker) (line_to_parse : string)
    (container_depth : Z) (extracted_whitespace : option string)
    (parser_properties parser_properties' : ParseBlockPassProperties) :
  look_for_pragmas position_marker line_to_parse container_depth
    extracted_whitespace parser_properties
  = (true, parser_properties') →
  0 < line_number position_marker →
  ∃ (skipped title body : string),
    PyStr.rstrip line_to_parse
    = ((if PyStr.startswith line_to_parse PragmaToken.pragma_alternate_prefix
        then "<!---"%string else "<!--"%string)
       +:+ skipped +:+ title +:+ body +:+ "-->")
    ∧ all_chars ParserHelper.is_space_char skipped = true
    ∧ PyStr.lower title = "pyml "%string
    ∧ Directive.command_data (stored_key position_marker line_to_parse)
        line_to_parse
      = body.
Proof.
  intros Hrun Hpositive.
  destruct (look_for_pragmas_body _ _ _ _ _ _ Hrun)
    as (matched & rest & Hmatched & Hline & Htitle & Hsuffix).
  set (n := ParserHelper.count_while ParserHelper.is_space_char rest) in *.
  set (r := PyStr.rstrip (PyStr.from n rest)) in *.
  set (skipped := PyStr.upto n rest).
  pose proof (title_and_suffix_length _ Htitle Hsuffix) as Hlen.
  rewrite length_lower in Hlen.
  (* the text after the prefix *)
  assert (rest = skipped +:+ PyStr.from n rest) as Hrest
    by (symmetry; apply upto_from).
  assert (String.length skipped = n) as Hskipped
    by (apply length_upto, count_while_le).
  assert (ParserHelper.count_while ParserHelper.is_space_char skipped
          = String.length skipped) as Hcount
    by apply count_while_upto.
  assert (r ≠ EmptyString) as Hr by (intros E; rewrite E in Hlen; simpl in Hlen; lia).
  assert (PyStr.rstrip rest = skipped +:+ r) as Hstripped.
  { rewrite Hrest at 1. by apply rstrip_app. }
  (* the title and the suffix *)
  assert (PyStr.lower (PyStr.upto 5 r) = "pyml "%string) as Hlower_title.
  { rewrite lower_upto. apply startswith_app in Htitle as [x ->]. done. }
  assert (PyStr.from (String.length r - 3) r = "-->"%string) as Hfrom.
  { apply lower_is_suffix. rewrite lower_from.
    unfold PyStr.endswith in Hsuffix.
    apply andb_true_iff in Hsuffix as [_ Heq%String.eqb_eq].
    by rewrite length_lower in Heq. }
  assert (matched
          = if PyStr.startswith line_to_parse PragmaToken.pragma_alternate_prefix
            then "<!---"%string else "<!--"%string) as Hliteral by exact Hmatched.
  exists skipped, (PyStr.upto 5 r), (PyStr.slice 5 (String.length r - 3) r).
  split_and!; [|by apply all_chars_count|done|].
  - rewrite Hline at 1.
    rewrite rstrip_app.
    + rewrite Hstripped, <- Hliteral. f_equal. f_equal.
      rewrite (slice_split 5 (String.length r - 3) r) at 1 by lia.
      by rewrite Hfrom.
    + rewrite Hstripped. intros E. apply Hr.
      apply (f_equal String.length) in E. rewrite length_app in E.
      destruct r; [done | simpl in E; lia].
  - unfold Directive.command_data, Directive.line_after_prefix.
    rewrite prefix_length_stored_key, <- Hmatched by done.
    assert (PyStr.from (String.length matched) line_to_parse = rest) as ->
      by (rewrite Hline; apply from_app_length).
    rewrite Hstripped.
    unfold ParserHelper.extract_spaces. cbn [Nat.leb]. rewrite from_0.
    assert (ParserHelper.count_while ParserHelper.is_space_char
              (skipped +:+ r) = n) as ->.
    { rewrite <- Hskipped. apply count_while_app_stop; [done|].
      pose proof (rstrip_head (PyStr.from n rest)) as Hhead. fold r in Hhead.
      destruct r as [|c r']; [done|]. destruct Hhead as [u Hu].
      pose proof (count_while_from ParserHelper.is_space_char rest) as Hstop.
      fold n in Hstop. by rewrite Hu in Hstop. }
    unfold PyStr.slice_to_end_minus, PyStr.slice.
    rewrite length_app, Hskipped. cbn [String.length PragmaToken.pragma_title
      PragmaToken.pragma_suffix Nat.add].
    replace (n + 5)%nat with (String.length skipped + 5)%nat
      by (by rewrite Hskipped).
    rewrite <- from_from, from_app_length. f_equal. lia.
Qed.

(** X5. While lines are numbered from 1 upwards, [look_for_pragmas]
    keeps the sign of the keys in step with the stored text: every key is
    non-zero, every stored line begins with [<!--], and it begins with
    [<!---] exactly when its key is negative. *)
Theorem look_for_pragmas_keeps_sign_in_step
    (position_marker : PositionMarker) (line_to_parse : string)
    (container_depth : Z) (extracted_whitespace : option string)
    (parser_properties : ParseBlockPassProperties) :
  0 < line_number position_marker →
  sign_matches_prefix (pragma_lines parser_properties) →
  sign_matches_prefix
    (pragma_lines
       (look_for_pragmas position_marker line_to_parse container_depth
          extracted_whitespace parser_properties).2).
Proof.
  intros Hpositive Hinv.
  destruct (look_for_pragmas position_marker line_to_parse container_depth
              extracted_whitespace parser_properties)
    as [[] parser_properties'] eqn:Hrun; simpl.
  - apply look_for_pragmas_true in Hrun as (_ & Hstd & ->).
    intros key raw_line.
    destruct (decide (key = stored_key position_marker line_to_parse))
      as [->|Hne].
    + rewrite get_set_eq. intros [= <-]. unfold stored_key.
      destruct (PyStr.startswith line_to_parse
                  PragmaToken.pragma_alternate_prefix);
        split_and!; try done; try lia; split; try done; lia.
    + rewrite get_set_ne by done. apply Hinv.
  - by apply look_for_pragmas_false in Hrun as ->.
Qed.

End DirectiveBody.

Section DirectiveBodyRuns.
Import PragmaExtension.

Lemma recognised_line_shape_witness :
  look_for_pragmas PragmaExamples.marker4 PragmaExamples.alternate_line
    0 None PragmaExamples.before4
  = (true, PragmaExamples.after4)
  ∧ 0 < line_number PragmaExamples.marker4
  ∧ ∃ (skipped title body : string),
      PyStr.rstrip PragmaExamples.alternate_line
      = ("<!---"%string +:+ skipped +:+ title +:+ body +:+ "-->")
      ∧ all_chars ParserHelper.is_space_char skipped = true
      ∧ PyStr.lower title = "pyml "%string
      ∧ Directive.command_data (-4) PragmaExamples.alternate_line = body.
Proof.
  split; [reflexivity|]. split; [reflexivity|].
  exact (recognised_line_shape (SP := ParserHelper.ascii_whitespace)
           PragmaExamples.marker4
           PragmaExamples.alternate_line 0 None PragmaExamples.before4
           PragmaExamples.after4 eq_refl eq_refl).
Defined.

Lemma look_for_pragmas_keeps_sign_in_step_witness :
  0 < line_number PragmaExamples.marker4
  ∧ sign_matches_prefix []
  ∧ sign_matches_prefix
      (pragma_lines
         (look_for_pragmas PragmaExamples.marker4 PragmaExamples.alternate_line
            0 None {| pragma_lines := [] |}).2).
Proof.
  assert (sign_matches_prefix []) as Hempty by (intros key raw_line [=]).
  split; [reflexivity|]. split; [exact Hempty|].
  exact (look_for_pragmas_keeps_sign_in_step (SP := ParserHelper.ascii_whitespace) PragmaExamples.marker4
           PragmaExamples.alternate_line 0 None {| pragma_lines := [] |}
           eq_refl Hempty).
Defined.

End DirectiveBodyRuns.

(** * Identifiers and the suppression table *)

Section Identifiers.
Import PragmaExtension.
Context `{SP : ParserHelper.Spaces}.

Implicit Types (all_ids : gmap string FoundPlugin) (σ : Store).

Lemma resolved_ids_elem all_ids (ids : list string) (id : string) :
  id ∈ Directive.resolved_ids all_ids ids
  ↔ ∃ name found,
      name ∈ map Directive.normalize ids
      ∧ name ≠ EmptyString
      ∧ all_ids !! name = Some found
      ∧ id = plugin_id found.
Proof.
  unfold Directive.resolved_ids.
  rewrite elem_of_list_to_set, list_elem_of_omap. unfold Directive.resolve.
  split.
  - intros (next_id & Hin & Hres).
    destruct (PyStr.is_empty (Directive.normalize next_id)) eqn:E; [done|].
    apply is_empty_false in E.
    destruct (all_ids !! Directive.normalize next_id) as [found|] eqn:F; [|done].
    injection Hres as <-. exists (Directive.normalize next_id), found.
    split_and!; try done. by apply (list_elem_of_fmap_2 Directive.normalize).
  - intros (name & found & Hin & Hne & Hfound & ->).
    apply list_elem_of_fmap in Hin as (next_id & -> & Hin).
    exists next_id. split; [done|].
    apply is_empty_false in Hne. by rewrite Hne, Hfound.
Qed.

(** X6. The entry that a [disable-next-line] directive stores depends on
    its list of ids only as a set of trimmed, lower-cased names: two
    directives that list the same names, in any order, in any case, with
    any whitespace around them and any repetition, leave the same
    suppression table, whatever characters [ParserHelper] takes for
    spaces and for the end of the command. *)
Theorem suppression_ignores_order_and_case
    scan_file (key : Z) all_ids σ1 σ2 (raw1 raw2 : string) :
  PyDict.get key (st_pragma_lines σ1) = Some raw1 →
  PyDict.get key (st_pragma_lines σ2) = Some raw2 →
  Directive.command key raw1 = "disable-next-line"%string →
  Directive.command key raw2 = "disable-next-line"%string →
  st_document_pragmas σ1 = st_document_pragmas σ2 →
  (∀ name,
     name ∈ map Directive.normalize (Directive.ids_to_disable key raw1)
     ↔ name ∈ map Directive.normalize (Directive.ids_to_disable key raw2)) →
  ∃ σ1' σ2',
    compile_single_pragma scan_file key all_ids σ1 = inr σ1'
    ∧ compile_single_pragma scan_file key all_ids σ2 = inr σ2'
    ∧ st_document_pragmas σ1' = st_document_pragmas σ2'.
Proof.
  intros Hget1 Hget2 Hcommand1 Hcommand2 Hdocs Hsame.
  rewrite (compile_single_pragma_dispatch _ _ _ _ _ Hget1).
  rewrite (compile_single_pragma_dispatch _ _ _ _ _ Hget2).
  rewrite (dispatch_disable_next_line _ _ _ _ _ Hcommand1).
  rewrite (dispatch_disable_next_line _ _ _ _ _ Hcommand2).
  eexists _, _. split; [done|]. split; [done|]. simpl.
  assert (Directive.resolved_ids all_ids (Directive.ids_to_disable key raw1)
          = Directive.resolved_ids all_ids (Directive.ids_to_disable key raw2))
    as ->.
  { apply set_eq. intros id. rewrite !resolved_ids_elem.
    split; intros (name & found & Hin & ?); exists name, found;
      (split; [by apply Hsame|done]). }
  by rewrite Hdocs.
Qed.

(** X7. The name that the loop of the [disable-next-line] handler looks
    up and quotes in its reports is stable: trimming and lower-casing it
    again gives the same name, so a token written as that name is handled
    in the same way as the token it came from. *)
Theorem normalised_id_is_stable
    scan_file (line : Z) all_ids (command : string)
    (acc : gset string * Store) (next_id : string) :
  PyStr.lower (PyStr.strip (PyStr.lower (PyStr.strip next_id)))
  = PyStr.lower (PyStr.strip next_id)
  ∧ disable_next_line_step scan_file line all_ids command acc
      (PyStr.lower (PyStr.strip next_id))
    = disable_next_line_step scan_file line all_ids command acc next_id.
Proof.
  assert (PyStr.lower (PyStr.strip (PyStr.lower (PyStr.strip next_id)))
          = PyStr.lower (PyStr.strip next_id)) as Hstable.
  { unfold PyStr.strip at 1.
    rewrite lstrip_lower, rstrip_lower, lower_idemp.
    fold (PyStr.strip (PyStr.strip next_id)). by rewrite strip_idemp. }
  split; [done|]. unfold disable_next_line_step. by rewrite Hstable.
Qed.

End Identifiers.

Section IdentifiersRuns.
Import PragmaExtension.

Lemma later_directive_replaces_earlier_witness :
  PyDict.get 4 (st_pragma_lines MoreExamples.both_spellings)
  = Some "<!-- pyml disable-next-line md001 -->"%string
  ∧ PyDict.get (-4) (st_pragma_lines MoreExamples.both_spellings)
    = Some "<!--- pyml disable-next-line no-trailing-spaces, zzz -->"%string
  ∧ ∃ σ1 σ2,
      compile_single_pragma "f.md" 4 MoreExamples.rules2
        MoreExamples.both_spellings = inr σ1
      ∧ compile_single_pragma "f.md" (-4) MoreExamples.rules2 σ1 = inr σ2
      ∧ st_document_pragmas σ2
        = <[5 := Directive.resolved_ids MoreExamples.rules2
                   (Directive.ids_to_disable (-4)
                      "<!--- pyml disable-next-line no-trailing-spaces, zzz -->")]>
            (∅ : gmap Z (gset string)).
Proof.
  split; [reflexivity|]. split; [reflexivity|].
  destruct (later_directive_replaces_earlier (SP := ParserHelper.ascii_whitespace) "f.md" 4 (-4) MoreExamples.rules2
              MoreExamples.both_spellings
              "<!-- pyml disable-next-line md001 -->"
              "<!--- pyml disable-next-line no-trailing-spaces, zzz -->"
              eq_refl eq_refl eq_refl eq_refl)
    as (σ1 & σ2 & reports1 & Hrun1 & Hrun2 & Hdocs & _).
  { intros Hempty.
    assert ("md009"%string
            ∈ Directive.resolved_ids MoreExamples.rules2
                (Directive.ids_to_disable (-4)
                   "<!--- pyml disable-next-line no-trailing-spaces, zzz -->"))
      as Hin by (apply elem_of_list_to_set; vm_compute; apply elem_of_cons; by left).
    rewrite Hempty in Hin. by apply not_elem_of_empty in Hin. }
  exists σ1, σ2. split; [exact Hrun1|]. split; [exact Hrun2 | exact Hdocs].
Defined.

Lemma suppression_ignores_order_and_case_witness :
  ∃ σ1' σ2',
    compile_single_pragma "f.md" 2 MoreExamples.rules2 MoreExamples.ids_one_way
    = inr σ1'
    ∧ compile_single_pragma "f.md" 2 MoreExamples.rules2
        MoreExamples.ids_other_way = inr σ2'
    ∧ st_document_pragmas σ1' = st_document_pragmas σ2'.
Proof.
  apply (suppression_ignores_order_and_case (SP := ParserHelper.ascii_whitespace) "f.md" 2 MoreExamples.rules2
           MoreExamples.ids_one_way MoreExamples.ids_other_way
           "<!-- pyml disable-next-line md001, MD009 -->"
           MoreExamples.other_way_line
           eq_refl eq_refl eq_refl eq_refl eq_refl).
  intros name.
  change (map Directive.normalize
            (Directive.ids_to_disable 2
               "<!-- pyml disable-next-line md001, MD009 -->"))
    with ["md001"; "md009"]%string.
  change (map Directive.normalize
            (Directive.ids_to_disable 2 MoreExamples.other_way_line))
    with ["md009"; "md001"; "md001"]%string.
  rewrite !elem_of_cons, !elem_of_nil. tauto.
Defined.

End IdentifiersRuns.

(** * The payload of the token, entry by entry *)

Section Payload.

Lemma set_new_key (d : PyDict.dict string) (key : Z) (text : string) :
  key ∉ PyDict.keys d → PyDict.set key text d = d ++ [(key, text)].
Proof.
  unfold PyDict.keys. induction d as [|[k v] d IH]; simpl; [done|].
  rewrite not_elem_of_cons. intros [Hne Hnotin].
  apply Z.eqb_neq in Hne as ->. by rewrite IH.
Qed.

Lemma init_payload (d : PyDict.dict string) :
  NoDup (PyDict.keys d) →
  extra_data (PragmaToken.base (PragmaToken.init d))
  = PyStr.from 1 (PyStr.join (map entry_text d)).
Proof.
  intros Hnd. unfold PragmaToken.init, PragmaToken.serialized_pragmas.
  cbn [extra_data PragmaToken.base]. do 2 f_equal.
  unfold PyDict.keys. rewrite map_map.
  apply map_ext_in. intros [k v] Hin%list_elem_of_In.
  unfold PragmaToken.serialize_entry, entry_text. simpl.
  by rewrite (get_entry _ _ _ Hnd Hin).
Qed.

Lemma app_empty_r (s : string) : s +:+ EmptyString = s.
Proof.
  induction s as [|c s IH]; [done|]. by rewrite app_cons, IH.
Qed.

Lemma from_1_entry (entry : Z * string) (s : string) :
  PyStr.from 1 (entry_text entry +:+ s)
  = pretty entry.1 +:+ ":" +:+ entry.2 +:+ s.
Proof.
  unfold entry_text. rewrite !app_cons, !app_nil_l. simpl.
  by rewrite !app_assoc.
Qed.

Lemma join_app (l1 l2 : list string) :
  PyStr.join (l1 ++ l2) = PyStr.join l1 +:+ PyStr.join l2.
Proof.
  unfold PyStr.join. induction l1 as [|x l1 IH]; simpl; [done|].
  by rewrite IH, app_assoc.
Qed.

(** X8. Recording one more directive extends the payload at its end: for
    a map that is not empty and a key that is new, the payload of the map
    with the entry added is the payload of the map followed by
    [;<key>:<raw text>]; for the empty map it is [<key>:<raw text>]. *)
Theorem payload_grows_at_the_end
    (d : PyDict.dict string) (key : Z) (text : string) :
  NoDup (PyDict.keys d) →
  key ∉ PyDict.keys d →
  extra_data (PragmaToken.base (PragmaToken.init (PyDict.set key text d)))
  = match d with
    | [] => pretty key +:+ ":" +:+ text
    | _ :: _ =>
        extra_data (PragmaToken.base (PragmaToken.init d))
        +:+ ";" +:+ pretty key +:+ ":" +:+ text
    end.
Proof.
  intros Hnd Hnew. rewrite set_new_key by done.
  rewrite init_payload.
  - rewrite map_app, join_app.
    assert (PyStr.join (map entry_text [(key, text)]) = entry_text (key, text))
      as -> by apply app_empty_r.
    destruct d as [|entry d].
    + rewrite app_nil_l, <- (app_empty_r (entry_text (key, text))).
      rewrite from_1_entry. simpl. by rewrite app_empty_r.
    + rewrite init_payload by done.
      assert (PyStr.join (map entry_text (entry :: d))
              = entry_text entry +:+ PyStr.join (map entry_text d)) as -> by done.
      rewrite app_assoc, !from_1_entry. unfold entry_text. simpl.
      by rewrite ?app_assoc.
  - unfold PyDict.keys in *. rewrite map_app. simpl.
    apply NoDup_app. split_and!; [done| |apply NoDup_singleton].
    intros k Hk ->%list_elem_of_singleton. done.
Qed.

Lemma payload_grows_at_the_end_witness :
  NoDup (PyDict.keys PragmaExamples.two_entries)
  ∧ (3 ∉ PyDict.keys PragmaExamples.two_entries)
  ∧ extra_data (PragmaToken.base
      (PragmaToken.init (PyDict.set 3 "c" PragmaExamples.two_entries)))
    = (extra_data (PragmaToken.base (PragmaToken.init PragmaExamples.two_entries))
       +:+ ";" +:+ pretty 3 +:+ ":" +:+ "c")%string.
Proof.
  assert (NoDup (PyDict.keys PragmaExamples.two_entries)) as Hnd.
  { apply NoDup_cons. split.
    - intros H. apply list_elem_of_singleton in H. discriminate H.
    - apply NoDup_cons. split; [apply not_elem_of_nil | apply NoDup_nil_2]. }
  assert (3 ∉ PyDict.keys PragmaExamples.two_entries) as Hnew.
  { intros H. apply elem_of_cons in H as [H|H]; [discriminate H|].
    apply list_elem_of_singleton in H. discriminate H. }
  split; [exact Hnd|]. split; [exact Hnew|].
  exact (payload_grows_at_the_end PragmaExamples.two_entries 3 "c" Hnd Hnew).
Defined.

End Payload.

(** * Properties of the start of [main] *)

Section StartFacts.
Import PyMarkdownLint PyMarkdownLintMain.
Context `{S : Startup} `{T : Tracebacks} `{FS : FileSystem}.

Lemma print_all_stderr_run (texts : list string) (σ : Run) :
  print_all_stderr texts σ
  = (inr (), {| plugins := plugins σ;
                stderr := stderr σ ++ texts;
                calls := calls σ |}).
Proof.
  revert σ. induction texts as [|text texts IH]; intros σ; simpl.
  - unfold mret. rewrite app_nil_r. by destruct σ.
  - unfold mbind, print_stderr. rewrite IH. simpl.
    by rewrite <- (assoc_L (++)).
Qed.

(** X17. With [--list-files], [main] lists and exits: it prints the
    files found, one per line, on [sys.stdout] and exits with status 0,
    or, when none is found, prints a message on [sys.stderr] and exits
    with status 1.  Either way no hook of the plugin manager is called
    and the plugin manager is left as it was. *)
Theorem list_files_never_scans (args : CommandLine) (π : Process) :
  list_files args = true →
  ∃ π',
    main_from_arguments args π
    = (inl (SystemExit
              (match (FileDiscovery.__determine_files_to_scan (paths args)).1 with
               | [] => 1
               | _ :: _ => 0
               end)), π')
    ∧ calls (run π') = calls (run π)
    ∧ plugins (run π') = plugins (run π)
    ∧ stdout π'
      = stdout π
        ++ match (FileDiscovery.__determine_files_to_scan (paths args)).1 with
           | [] => []
           | found => [join_with newline found]
           end
    ∧ stderr (run π')
      = stderr (run π)
        ++ (FileDiscovery.__determine_files_to_scan (paths args)).2
        ++ match (FileDiscovery.__determine_files_to_scan (paths args)).1 with
           | [] => ["No Markdown files found."%string]
           | _ :: _ => []
           end.
Proof.
  intros Hlist. unfold main_from_arguments.
  destruct (FileDiscovery.__determine_files_to_scan (paths args))
    as [files_to_scan printed].
  rewrite Hlist. simpl fst. simpl snd.
  unfold pbind at 1. unfold lift at 1. rewrite print_all_stderr_run.
  destruct files_to_scan as [|file files]; simpl.
  - unfold pbind, lift. simpl. eexists. split; [done|]. simpl.
    split_and!; try done; by rewrite ?app_nil_r, <- ?(assoc_L (++)).
  - unfold pbind, lift. simpl. eexists. split; [done|]. simpl.
    split_and!; try done. by rewrite !app_nil_r.
Qed.

(** X18. A plugin that cannot be loaded ends [main] before anything is
    scanned: when the initialisation of a fresh plugin manager raises
    [BadPluginError], [main] logs the text "BadPluginError encountered
    while loading plugins:" with the cause as a warning, prints it on
    [sys.stderr] after the messages of the file discovery, prints the
    stack trace after it exactly when stack traces were asked for, and
    exits with status 1.  The warning is the only call made: no hook of
    the plugin manager is called. *)
Theorem plugin_load_failure_ends_main (args : CommandLine) (π : Process)
    (message : string) (pm : PM) :
  list_files args = false →
  initialize plugin_dir (add_plugin args) (enable_rules args)
    (disable_rules args) PluginManager
  = (inl (BadPluginError message), pm) →
  main_from_arguments args π
  = (inl (SystemExit 1),
     {| run :=
          {| plugins := pm;
             stderr :=
               stderr (run π)
               ++ (FileDiscovery.__determine_files_to_scan (paths args)).2
               ++ ["BadPluginError encountered while loading plugins:"
                   +:+ newline +:+ message]
               ++ (if show_stack_trace (scan_args args)
                   then [traceback_print_exc
                           (Handled_exception (BadPluginError message))]
                   else []);
             calls :=
               calls (run π)
               ++ [Call_logger_warning
                     ("BadPluginError encountered while loading plugins:"
                      +:+ newline +:+ message)
                     (Handled_exception (BadPluginError message))] |};
        stdout := stdout π |}).
Proof.
  intros Hlist Hinit. unfold main_from_arguments.
  destruct (FileDiscovery.__determine_files_to_scan (paths args))
    as [files_to_scan printed].
  rewrite Hlist. simpl fst. simpl snd.
  unfold pbind at 1. unfold lift at 1. rewrite print_all_stderr_run.
  unfold lift. simpl. unfold mbind at 1.
  unfold __initialize_plugins. unfold mbind at 1. simpl.
  unfold except_BadPluginError, on_plugins. simpl. rewrite Hinit.
  unfold __handle_error, mbind, print_stderr, mraise, record_call. simpl.
  destruct (show_stack_trace (scan_args args)); simpl;
    by rewrite <- ?(assoc_L (++)), ?app_nil_r.
Qed.

(** X19. A configuration file that cannot be read, or that is not JSON,
    ends [main] before the configuration is applied and before anything
    is scanned: [main] logs one text that names the file and the cause
    as a warning, prints it on [sys.stderr] after the messages of the
    file discovery, prints the stack trace after it exactly when stack
    traces were asked for, and exits with status 1.  The warning is the
    only call made, and the plugin manager is as its initialisation left
    it. *)
Theorem unusable_configuration_ends_main (args : CommandLine) (π : Process)
    (file cause : string) (pm : PM) :
  list_files args = false →
  initialize plugin_dir (add_plugin args) (enable_rules args)
    (disable_rules args) PluginManager
  = (inr (), pm) →
  TokenizedMarkdown (if x_test_init_fault args then Some "fredo"%string else None)
  = inr () →
  configuration_file args = Some file →
  file ≠ EmptyString →
  json_load file = JSONDecodeError cause ∨ json_load file = IOError cause →
  main_from_arguments args π
  = (inl (SystemExit 1),
     {| run :=
          {| plugins := pm;
             stderr :=
               stderr (run π)
               ++ (FileDiscovery.__determine_files_to_scan (paths args)).2
               ++ ["Specified configuration file '" +:+ file
                   +:+ (match json_load file with
                        | IOError _ => "' was not loaded ("
                        | _ => "' is not a valid JSON file ("
                        end)
                   +:+ cause +:+ ")."]
               ++ (if show_stack_trace (scan_args args)
                   then [traceback_print_exc
                           (match json_load file with
                            | IOError _ => Handled_IOError cause
                            | _ => Handled_JSONDecodeError cause
                            end)]
                   else []);
             calls :=
               calls (run π)
               ++ [Call_logger_warning
                     ("Specified configuration file '" +:+ file
                      +:+ (match json_load file with
                           | IOError _ => "' was not loaded ("
                           | _ => "' is not a valid JSON file ("
                           end)
                      +:+ cause +:+ ").")
                     (match json_load file with
                      | IOError _ => Handled_IOError cause
                      | _ => Handled_JSONDecodeError cause
                      end)] |};
        stdout := stdout π |}).
Proof.
  intros Hlist Hinit Htokenizer Hfile Hne Hload. unfold main_from_arguments.
  destruct (FileDiscovery.__determine_files_to_scan (paths args))
    as [files_to_scan printed].
  rewrite Hlist. simpl fst. simpl snd.
  unfold pbind at 1. unfold lift at 1. rewrite print_all_stderr_run.
  unfold lift. simpl. unfold mbind at 1.
  unfold __initialize_plugins. unfold mbind at 1. simpl.
  unfold except_BadPluginError at 1, on_plugins at 1. simpl. rewrite Hinit.
  unfold mbind at 1. unfold __initialize_parser.
  unfold except_BadTokenizationError. rewrite Htokenizer.
  unfold mbind at 1. unfold __load_configuration_and_apply_to_plugins.
  unfold mbind at 1. rewrite Hfile.
  apply is_empty_false in Hne as ->.
  unfold load_json_configuration.
  destruct Hload as [-> | ->];
    unfold __handle_error, mbind, print_stderr, mraise, record_call; simpl;
    destruct (show_stack_trace (scan_args args)); simpl;
    by rewrite <- ?(assoc_L (++)), ?app_nil_r.
Qed.

End StartFacts.

Section StartRuns.
Import PyMarkdownLint PyMarkdownLintMain ScanExamples MoreExamples.

Lemma list_files_never_scans_witness :
  list_files list_only = true
  ∧ main_from_arguments list_only process0
    = (inl (SystemExit 0),
       {| run := {| plugins := 0;
                    stderr := ["Provided path 'nowhere' does not exist. Skipping."%string];
                    calls := [] |};
          stdout := [("a.md" +:+ newline +:+ "docs/b.md" +:+ newline
                      +:+ "docs/sub/d.md")%string] |})
  ∧ ∃ π', (main_from_arguments list_only process0).2 = π'
          ∧ calls (run π') = calls (run process0).
Proof.
  split; [reflexivity|]. split; [reflexivity|].
  destruct (list_files_never_scans list_only process0 eq_refl)
    as (π' & Hrun & Hcalls & _).
  exists π'. split; [by rewrite Hrun | exact Hcalls].
Defined.

Lemma plugin_load_failure_ends_main_witness :
  list_files bad_rule = false
  ∧ main_from_arguments bad_rule process0
    = (inl (SystemExit 1),
       {| run := {| plugins := 0;
                    stderr := [("BadPluginError encountered while loading plugins:"
                                +:+ newline +:+ "no such rule")%string;
                               "Traceback (most recent call last): BadPluginError: no such rule"%string];
                    calls := [Call_logger_warning
                                ("BadPluginError encountered while loading plugins:"
                                 +:+ newline +:+ "no such rule")
                                (Handled_exception (BadPluginError "no such rule"))] |};
          stdout := [] |}).
Proof.
  split; [reflexivity|].
  exact (plugin_load_failure_ends_main bad_rule process0 "no such rule" 0
           eq_refl eq_refl).
Defined.

Lemma unusable_configuration_ends_main_witness :
  list_files broken_configuration = false
  ∧ configuration_file broken_configuration = Some "broken.json"%string
  ∧ json_load "broken.json" = JSONDecodeError "Expecting value"
  ∧ main_from_arguments broken_configuration process0
    = (inl (SystemExit 1),
       {| run := {| plugins := 0;
                    stderr := ["Specified configuration file 'broken.json' is not a valid JSON file (Expecting value)."%string;
                               "Traceback (most recent call last): JSONDecodeError: Expecting value"%string];
                    calls := [Call_logger_warning
                                "Specified configuration file 'broken.json' is not a valid JSON file (Expecting value)."
                                (Handled_JSONDecodeError "Expecting value")] |};
          stdout := [] |}).
Proof.
  split; [reflexivity|]. split; [reflexivity|]. split; [reflexivity|].
  exact (unusable_configuration_ends_main broken_configuration process0
           "broken.json" "Expecting value" 0 eq_refl eq_refl eq_refl eq_refl
           ltac:(discriminate) (or_introl eq_refl)).
Defined.

Lemma determined_files_ignore_order_witness :
  (∀ next_path,
     next_path ∈ ["a.md"; "docs"]%string
     ↔ next_path ∈ ["docs"; "a.md"; "docs"]%string)
  ∧ (FileDiscovery.__determine_files_to_scan ["a.md"; "docs"]%string).1
    = (FileDiscovery.__determine_files_to_scan ["docs"; "a.md"; "docs"]%string).1.
Proof.
  assert (∀ next_path,
            next_path ∈ ["a.md"; "docs"]%string
            ↔ next_path ∈ ["docs"; "a.md"; "docs"]%string) as Hsame.
  { intros next_path. rewrite !elem_of_cons, !elem_of_nil. tauto. }
  split; [exact Hsame|].
  exact (determined_files_ignore_order _ _ Hsame).
Defined.

End StartRuns.

(** * Properties of the test helpers *)

Section TestUtilsFacts.
Import TestUtils.
Context {E A : Type}.
Context (str_expected : E → string) (str_actual : A → string).
Context (str_expected_list : list E → string) (str_actual_list : list A → string).

Lemma compare_elements_outcome (tokens : list (E * A)) :
  (compare_elements str_expected str_actual tokens).2 = inr ()
  ↔ map (λ pair, str_expected pair.1) tokens
    = map (λ pair, str_actual pair.2) tokens.
Proof.
  induction tokens as [|[expected actual] tokens IH]; simpl; [done|].
  destruct (String.eqb (str_expected expected) (str_actual actual)) eqn:E'.
  - apply String.eqb_eq in E'.
    destruct (compare_elements str_expected str_actual tokens)
      as [more outcome]. simpl in *. rewrite IH. split.
    + intros ->. by rewrite E'.
    + by intros [= _ ?].
  - apply String.eqb_neq in E'. simpl. split; [done | by intros [= ? _]].
Qed.

(** X20. [assert_if_lists_different] accepts two lists exactly when they
    have the same length and, position by position, elements of the
    same [str]: it compares texts, not the elements themselves. *)
Theorem lists_accepted_iff_same_text (expected_tokens : list E)
    (actual_tokens : list A) :
  (assert_if_lists_different str_expected str_actual
     str_expected_list str_actual_list expected_tokens actual_tokens).2
  = inr ()
  ↔ map str_expected expected_tokens = map str_actual actual_tokens.
Proof.
  unfold assert_if_lists_different.
  destruct (Nat.eqb (List.length expected_tokens) (List.length actual_tokens))
    eqn:Hlen; simpl.
  - apply Nat.eqb_eq in Hlen.
    pose proof (compare_elements_outcome (zip expected_tokens actual_tokens))
      as Hloop.
    destruct (compare_elements str_expected str_actual
                (zip expected_tokens actual_tokens)) as [printed outcome].
    simpl in Hloop.
    assert (map (λ pair : E * A, str_expected pair.1)
              (zip expected_tokens actual_tokens)
            = map str_expected expected_tokens) as Hfst.
    { rewrite <- (fst_zip expected_tokens actual_tokens) at 2 by lia.
      by rewrite <- list_fmap_compose. }
    assert (map (λ pair : E * A, str_actual pair.2)
              (zip expected_tokens actual_tokens)
            = map str_actual actual_tokens) as Hsnd.
    { rewrite <- (snd_zip expected_tokens actual_tokens) at 2 by lia.
      by rewrite <- list_fmap_compose. }
    rewrite Hfst, Hsnd in Hloop. rewrite <- Hloop.
    destruct outcome as [e|[]]; simpl; [done|]. done.
  - apply Nat.eqb_neq in Hlen. split; [done|].
    intros Hmap. exfalso. apply Hlen.
    apply (f_equal (@List.length string)) in Hmap.
    by rewrite !length_map in Hmap.
Qed.

End TestUtilsFacts.
